(** * The vscope on-board logger (onboard/logger.c)

    A shallow embedding of the acquisition engine: the global [vscope]
    structure, the two function-local static counters of [vscopeAcquire],
    the frame capture [saveFrameToBuffer], the tick [vscopeAcquire], the
    trigger [vscopeTrigger], the run-time parameter accessors and
    [vscopeInit].

    Integers are [Z] with the 16-bit wrap-around of [uint16_t] written out
    ([wrap16]).  The header vscope.h is not part of the sources: its
    compile-time constants are parameters of the section [Logger], and the
    integer fields of [VscopeStruct] are read as [uint16_t], the type of the
    static counters they are compared with; a statement that needs the range
    of such a field says so (as in [acq_time (vscope g) < 65536]). *)

From stdpp Require Import gmap strings list.
From Stdlib Require Import ZArith Lia.

Local Open Scope Z_scope.

(** ** Machine data *)

(** [uint16_t] arithmetic: results are reduced modulo 2^16. *)
Definition wrap16 (x : Z) : Z := x mod 65536.

(** A C [float], kept as its 32-bit pattern: the logger only stores and
    copies floats, it never computes with them. *)
Definition float : Type := Z.

(** The literals of [vscopeInit]: 0.5f and 0.1f as IEEE-754 binary32. *)
Definition float_0_5 : float := 0x3F000000.
Definition float_0_1 : float := 0x3DCCCCCD.

(** The acquisition states (an enumeration of vscope.h).  The [switch] of
    [vscopeAcquire] names the first three; every other value, and so
    [VSCOPE_MISCONFIGURED], takes its [default] branch. *)
Inductive VscopeState : Type :=
  | VSCOPE_HALTED
  | VSCOPE_RUNNING
  | VSCOPE_ACQUIRING
  | VSCOPE_MISCONFIGURED.

Definition VscopeState_eqb (a b : VscopeState) : bool :=
  match a, b with
  | VSCOPE_HALTED, VSCOPE_HALTED
  | VSCOPE_RUNNING, VSCOPE_RUNNING
  | VSCOPE_ACQUIRING, VSCOPE_ACQUIRING
  | VSCOPE_MISCONFIGURED, VSCOPE_MISCONFIGURED => true
  | _, _ => false
  end.

(** The external control-loop variables that [vscopeInit] binds to channel
    slots.  A channel pointer is the name of the variable it points to. *)
Inductive source : Type :=
  | voltage_setpoint
  | voltage_limit
  | voltage_measurement
  | current_measurement
  | temperature
  | frequency
  | duration
  | threshold
  | phase.

(** The stringification [#name] of [CONFIGURE_CHANNEL]. *)
Definition source_name (s : source) : string :=
  match s with
  | voltage_setpoint => "voltage_setpoint"
  | voltage_limit => "voltage_limit"
  | voltage_measurement => "voltage_measurement"
  | current_measurement => "current_measurement"
  | temperature => "temperature"
  | frequency => "frequency"
  | duration => "duration"
  | threshold => "threshold"
  | phase => "phase"
  end.

(** The values of the external variables at the instant of a call. *)
Definition Memory : Type := source -> float.

(** ** The global data *)

(** [VscopeStruct].  [buffer] maps (row, channel) to the stored sample; a
    cell that was never written since the last [memset] is absent and reads
    as zero ([buffer_at]).  The bounds of the array are in the header: the
    map has none, and a write beyond them, undefined in C, is a write to the
    map like any other; that the cursor stays below [buffer_size] is proved
    below.  [frame] maps a channel slot to the variable it
    points to; an absent slot is the null pointer left by [memset]. *)
Record VscopeStruct : Type := mkVscope {
  state : VscopeState;
  request : VscopeState;
  n_ch : Z;
  buffer_size : Z;
  pre_trig : Z;
  divider : Z;
  acq_time : Z;
  index : Z;
  first_element : Z;
  buffer : gmap (Z * Z) float;
  frame : gmap Z source
}.

(** All objects of static storage duration of logger.c: the structure, the
    run-time parameter array, the channel name table and the two [static]
    locals of [vscopeAcquire].  [frames_saved] is a ghost counter, not
    program data: the number of completed calls of [saveFrameToBuffer]. *)
Record Globals : Type := mkGlobals {
  vscope : VscopeStruct;
  rt_buffer : gmap Z float;
  vscope_channel_names : gmap Z string;
  acquire_divider : Z;
  acquire_run_index : Z;
  frames_saved : nat
}.

(** Field assignments. *)
Definition set_state (x : VscopeState) (v : VscopeStruct) : VscopeStruct :=
  mkVscope x (request v) (n_ch v) (buffer_size v) (pre_trig v) (divider v)
    (acq_time v) (index v) (first_element v) (buffer v) (frame v).

Definition set_request (x : VscopeState) (v : VscopeStruct) : VscopeStruct :=
  mkVscope (state v) x (n_ch v) (buffer_size v) (pre_trig v) (divider v)
    (acq_time v) (index v) (first_element v) (buffer v) (frame v).

Definition set_n_ch (x : Z) (v : VscopeStruct) : VscopeStruct :=
  mkVscope (state v) (request v) x (buffer_size v) (pre_trig v) (divider v)
    (acq_time v) (index v) (first_element v) (buffer v) (frame v).

Definition set_buffer_size (x : Z) (v : VscopeStruct) : VscopeStruct :=
  mkVscope (state v) (request v) (n_ch v) x (pre_trig v) (divider v)
    (acq_time v) (index v) (first_element v) (buffer v) (frame v).

Definition set_divider (x : Z) (v : VscopeStruct) : VscopeStruct :=
  mkVscope (state v) (request v) (n_ch v) (buffer_size v) (pre_trig v) x
    (acq_time v) (index v) (first_element v) (buffer v) (frame v).

Definition set_pre_trig (x : Z) (v : VscopeStruct) : VscopeStruct :=
  mkVscope (state v) (request v) (n_ch v) (buffer_size v) x (divider v)
    (acq_time v) (index v) (first_element v) (buffer v) (frame v).

Definition set_acq_time (x : Z) (v : VscopeStruct) : VscopeStruct :=
  mkVscope (state v) (request v) (n_ch v) (buffer_size v) (pre_trig v)
    (divider v) x (index v) (first_element v) (buffer v) (frame v).

Definition set_index (x : Z) (v : VscopeStruct) : VscopeStruct :=
  mkVscope (state v) (request v) (n_ch v) (buffer_size v) (pre_trig v)
    (divider v) (acq_time v) x (first_element v) (buffer v) (frame v).

Definition set_first_element (x : Z) (v : VscopeStruct) : VscopeStruct :=
  mkVscope (state v) (request v) (n_ch v) (buffer_size v) (pre_trig v)
    (divider v) (acq_time v) (index v) x (buffer v) (frame v).

Definition set_buffer (x : gmap (Z * Z) float) (v : VscopeStruct)
  : VscopeStruct :=
  mkVscope (state v) (request v) (n_ch v) (buffer_size v) (pre_trig v)
    (divider v) (acq_time v) (index v) (first_element v) x (frame v).

Definition set_frame (x : gmap Z source) (v : VscopeStruct) : VscopeStruct :=
  mkVscope (state v) (request v) (n_ch v) (buffer_size v) (pre_trig v)
    (divider v) (acq_time v) (index v) (first_element v) (buffer v) x.

Definition with_vscope (f : VscopeStruct -> VscopeStruct) (g : Globals)
  : Globals :=
  mkGlobals (f (vscope g)) (rt_buffer g) (vscope_channel_names g)
    (acquire_divider g) (acquire_run_index g) (frames_saved g).

Definition set_acquire_divider (x : Z) (g : Globals) : Globals :=
  mkGlobals (vscope g) (rt_buffer g) (vscope_channel_names g)
    x (acquire_run_index g) (frames_saved g).

Definition set_acquire_run_index (x : Z) (g : Globals) : Globals :=
  mkGlobals (vscope g) (rt_buffer g) (vscope_channel_names g)
    (acquire_divider g) x (frames_saved g).

(** Reading a buffer cell and a channel pointer.  Reading through a null
    channel pointer is undefined in C; here it yields zero, and the
    statements about captured values speak of bound slots only. *)
Definition buffer_at (b : gmap (Z * Z) float) (row ch : Z) : float :=
  default 0 (b !! (row, ch)).

Definition read_source (mem : Memory) (p : option source) : float :=
  match p with
  | Some s => mem s
  | None => 0
  end.

(** [strncpy(dst, src, n)] as far as the stored characters go: the first
    [n] characters of [src]. *)
Definition strncpy (src : string) (n : Z) : string :=
  String.substring 0 (Z.to_nat n) src.

(** ** The functions of logger.c *)

Section Logger.

(** The constants of vscope.h. *)
Variable VSCOPE_DEFAULT_BUFFER_SIZE : Z.
Variable VSCOPE_NUM_CHANNELS : Z.
Variable VSCOPE_MEMORY : Z.
Variable VSCOPE_MAX_NAME_LEN : Z.
Variable PI_KP : Z.
Variable PI_KI : Z.

(** The number of values of the C type in which line 28 multiplies the two
    constants (their type after the usual arithmetic conversions, which the
    header and the target fix): 2^16 for a 16-bit [unsigned int], 2^32 for a
    32-bit one.  The product is reduced modulo this number. *)
Variable CAPACITY_MODULUS : Z.

(** [rt_buffer[index] = value] and [return rt_buffer[index]]. *)
Definition vscopeSetRtBuffer (i : Z) (value : float) (g : Globals)
  : Globals :=
  mkGlobals (vscope g) (<[i := value]> (rt_buffer g))
    (vscope_channel_names g) (acquire_divider g) (acquire_run_index g)
    (frames_saved g).

Definition vscopeGetRtBuffer (i : Z) (g : Globals) : float :=
  default 0 (rt_buffer g !! i).

(** The macro [CONFIGURE_CHANNEL(name, ch)]. *)
Definition CONFIGURE_CHANNEL (name : source) (ch : Z) (g : Globals)
  : Globals :=
  mkGlobals (set_frame (<[ch := name]> (frame (vscope g))) (vscope g))
    (rt_buffer g)
    (<[ch := strncpy (source_name name) VSCOPE_MAX_NAME_LEN]>
       (vscope_channel_names g))
    (acquire_divider g) (acquire_run_index g) (frames_saved g).

(** [vscopeInit], assignment by assignment.  The cursor [index],
    [first_element] and the static counters are not assigned: they keep the
    value they have.  The product of the capacity test wraps around in its C
    type ([CAPACITY_MODULUS]) before it is compared; what is stored in a
    field is reduced to 16 bits. *)
Definition vscopeInit (g : Globals) : Globals :=
  let g := with_vscope (set_frame ∅) g in
  let g := with_vscope (set_buffer ∅) g in
  let g := with_vscope (set_state VSCOPE_HALTED) g in
  let g := with_vscope (set_request VSCOPE_HALTED) g in
  let g :=
    with_vscope (set_buffer_size (wrap16 VSCOPE_DEFAULT_BUFFER_SIZE)) g in
  let g := with_vscope (set_n_ch (wrap16 VSCOPE_NUM_CHANNELS)) g in
  let g := with_vscope (set_pre_trig 0) g in
  let g := with_vscope (set_divider 1) g in
  let g :=
    if (VSCOPE_DEFAULT_BUFFER_SIZE * VSCOPE_NUM_CHANNELS)
         mod CAPACITY_MODULUS >? VSCOPE_MEMORY
    then with_vscope (set_state VSCOPE_MISCONFIGURED) g
    else g in
  let g :=
    with_vscope
      (set_acq_time
         (wrap16 (VSCOPE_DEFAULT_BUFFER_SIZE - pre_trig (vscope g)))) g in
  let g := vscopeSetRtBuffer PI_KP float_0_5 g in
  let g := vscopeSetRtBuffer PI_KI float_0_1 g in
  let g := CONFIGURE_CHANNEL voltage_setpoint 0 g in
  let g := CONFIGURE_CHANNEL voltage_limit 1 g in
  let g := CONFIGURE_CHANNEL voltage_measurement 2 g in
  let g := CONFIGURE_CHANNEL current_measurement 3 g in
  let g := CONFIGURE_CHANNEL voltage_limit 4 g in
  let g := CONFIGURE_CHANNEL temperature 5 g in
  let g := CONFIGURE_CHANNEL frequency 6 g in
  let g := CONFIGURE_CHANNEL duration 7 g in
  let g := CONFIGURE_CHANNEL threshold 8 g in
  let g := CONFIGURE_CHANNEL phase 9 g in
  g.

(** The loop of [saveFrameToBuffer], entered with loop counter [i]:
    [for (; i < VSCOPE_NUM_CHANNELS; i += 1U)
       vscope.buffer[vscope.index][i] = *vscope.frame[i];].
    The counter is a [uint16_t]; a loop that has not ended after
    [fuel] iterations yields [None]. *)
Fixpoint save_channels (fuel : nat) (i : Z) (mem : Memory)
    (v : VscopeStruct) : option VscopeStruct :=
  if i <? VSCOPE_NUM_CHANNELS then
    match fuel with
    | O => None
    | S fuel' =>
        save_channels fuel' (wrap16 (i + 1)) mem
          (set_buffer
             (<[(index v, i) := read_source mem (frame v !! i)]> (buffer v))
             v)
    end
  else Some v.

(** There are 65536 values of the loop counter: a loop that runs longer
    has come back to a counter value it had before and never ends. *)
Definition channel_fuel : nat := Z.to_nat 65536.

(** [saveFrameToBuffer]; [None] when its loop does not terminate. *)
Definition saveFrameToBuffer (mem : Memory) (g : Globals)
  : option Globals :=
  match save_channels channel_fuel 0 mem (vscope g) with
  | None => None
  | Some v =>
      let v := set_index (wrap16 (index v + 1)) v in
      let v := if index v =? buffer_size v then set_index 0 v else v in
      Some (mkGlobals v (rt_buffer g) (vscope_channel_names g)
              (acquire_divider g) (acquire_run_index g)
              (S (frames_saved g)))
  end.

(** The [switch] of [vscopeAcquire] (lines 73 to 116), run once the
    decimation gate has let the call through. *)
Definition acquire_switch (mem : Memory) (g : Globals) : option Globals :=
  match state (vscope g) with
  | VSCOPE_HALTED =>
      let g := with_vscope (set_index 0) g in
      let g :=
        if VscopeState_eqb (request (vscope g)) VSCOPE_RUNNING
        then with_vscope (set_state VSCOPE_RUNNING) g else g in
      Some g
  | VSCOPE_RUNNING =>
      let g :=
        if VscopeState_eqb (request (vscope g)) VSCOPE_HALTED
        then with_vscope (set_state VSCOPE_HALTED) g else g in
      let g :=
        if VscopeState_eqb (request (vscope g)) VSCOPE_ACQUIRING then
          if acq_time (vscope g) =? 0 then
            let g := with_vscope (set_state VSCOPE_HALTED) g in
            with_vscope (set_first_element (index (vscope g))) g
          else
            let g := with_vscope (set_state VSCOPE_ACQUIRING) g in
            set_acquire_run_index 1 g
        else g in
      saveFrameToBuffer mem g
  | VSCOPE_ACQUIRING =>
      if acquire_run_index g =? acq_time (vscope g) then
        let g := with_vscope (set_state VSCOPE_HALTED) g in
        Some (with_vscope (set_first_element (index (vscope g))) g)
      else
        let g :=
          set_acquire_run_index (wrap16 (acquire_run_index g + 1)) g in
        saveFrameToBuffer mem g
  | VSCOPE_MISCONFIGURED => Some g
  end.

(** [vscopeAcquire]: the decimation gate, then the state machine. *)
Definition vscopeAcquire (mem : Memory) (g : Globals) : option Globals :=
  let g := set_acquire_divider (wrap16 (acquire_divider g + 1)) g in
  if acquire_divider g <? divider (vscope g) then Some g
  else acquire_switch mem (set_acquire_divider 0 g).

(** [vscopeTrigger]. *)
Definition vscopeTrigger (g : Globals) : Globals :=
  if VscopeState_eqb (state (vscope g)) VSCOPE_RUNNING
  then with_vscope (set_request VSCOPE_ACQUIRING) g
  else g.

(** ** Sequences of calls *)

(** Whether the decimation gate of [vscopeAcquire] lets the next call
    through (a decimation-qualifying tick): the negation of the test
    [divider < vscope.divider] after the increment. *)
Definition gate_open (g : Globals) : bool :=
  negb (wrap16 (acquire_divider g + 1) <? divider (vscope g)).

(** The entry points that the timer and the host call. *)
Inductive call : Type :=
  | Tick (mem : Memory)
  | Trigger.

Definition do_call (c : call) (g : Globals) : option Globals :=
  match c with
  | Tick mem => vscopeAcquire mem g
  | Trigger => Some (vscopeTrigger g)
  end.

(** Calls made one after the other. *)
Fixpoint run_calls (cs : list call) (g : Globals) : option Globals :=
  match cs with
  | [] => Some g
  | c :: cs' =>
      match do_call c g with
      | Some g' => run_calls cs' g'
      | None => None
      end
  end.

(** The number of ticks of a sequence of calls that pass the gate. *)
Fixpoint evaluations (cs : list call) (g : Globals) : nat :=
  match cs with
  | [] => O
  | c :: cs' =>
      ((match c with
        | Tick _ => if gate_open g then 1 else 0
        | Trigger => 0
        end)
       + match do_call c g with
         | Some g' => evaluations cs' g'
         | None => 0
         end)%nat
  end.

End Logger.

(** A host write of the request field. *)
Definition host_request (r : VscopeState) (g : Globals) : Globals :=
  with_vscope (set_request r) g.

(** Static storage before [vscopeInit] runs: all zero ([vscopeInit]
    assigns both state fields, whichever enumerator is zero). *)
Definition boot : Globals :=
  mkGlobals
    (mkVscope VSCOPE_HALTED VSCOPE_HALTED 0 0 0 0 0 0 0 ∅ ∅)
    ∅ ∅ 0 0 0.

(** What the buffer of [v] reads at (r, c) once [saveFrameToBuffer] has
    copied [n] channels into the row at the cursor of [v]. *)
Definition cell_after_capture (n : Z) (mem : Memory) (v : VscopeStruct)
    (r c : Z) : option float :=
  if decide (r = index v /\ 0 <= c < n)
  then Some (read_source mem (frame v !! c))
  else buffer v !! (r, c).

(** The fields of the structure that only [vscopeInit] and the host write
    have the same value in [v] and [v']. *)
Definition same_settings (v v' : VscopeStruct) : Prop :=
  n_ch v' = n_ch v /\ buffer_size v' = buffer_size v
  /\ pre_trig v' = pre_trig v /\ divider v' = divider v
  /\ acq_time v' = acq_time v /\ frame v' = frame v.

(** The cursor that [saveFrameToBuffer] leaves (lines 56 to 60). *)
Definition next_index (v : VscopeStruct) : Z :=
  let i := wrap16 (index v + 1) in
  if i =? buffer_size v then 0 else i.

(** The globals after a capture that filled the buffer to [b]. *)
Definition captured (b : gmap (Z * Z) float) (g : Globals) : Globals :=
  mkGlobals (set_index (next_index (vscope g)) (set_buffer b (vscope g)))
    (rt_buffer g) (vscope_channel_names g) (acquire_divider g)
    (acquire_run_index g) (S (frames_saved g)).

(** ** A configuration to run the logger on *)

Module Example.

(** Eight frames of ten channels in a store of eighty samples. *)
Definition buffer_frames : Z := 8.
Definition channels : Z := 10.
Definition memory : Z := 80.
Definition name_len : Z := 32.

(** The constants are multiplied as 16-bit unsigned integers. *)
Definition word : Z := 65536.

Definition init : Globals :=
  vscopeInit buffer_frames channels memory name_len 0 1 word boot.



(** Every source reads its position in the list of sources. *)
Definition mem : Memory := fun s =>
  match s with
  | voltage_setpoint => 11
  | voltage_limit => 12
  | voltage_measurement => 13
  | current_measurement => 14
  | temperature => 15
  | frequency => 16
  | duration => 17
  | threshold => 18
  | phase => 19
  end.

(** The globals after a sequence of calls. *)
Definition after (cs : list call) (g : Globals) : Globals :=
  default g (run_calls channels cs g).

(** The host asks for a run; the first tick leaves Halted, three more
    capture a frame each. *)
Definition started : Globals := host_request VSCOPE_RUNNING init.

Definition running3 : Globals :=
  after [Tick mem; Tick mem; Tick mem; Tick mem] started.

(** The same run, triggered. *)
Definition triggered3 : Globals := after [Trigger] running3.

(** The same run with the whole buffer as pre-trigger history, so that
    the acquisition window is empty, and then a trigger. *)
Definition zero_window_triggered : Globals :=
  after [Tick mem; Tick mem; Tick mem; Tick mem; Trigger]
    (with_vscope (set_acq_time 0)
       (with_vscope (set_pre_trig 8) started)).

End Example.

(** ** The frames that a sequence of calls captures *)

(** Whether a call of [vscopeAcquire] reaches [saveFrameToBuffer]: the gate
    lets it through and the state is Running (line 97), or Acquiring with the
    run counter not at [acq_time] (line 107). *)
Definition captures (g : Globals) : bool :=
  gate_open g
  && match state (vscope g) with
     | VSCOPE_RUNNING => true
     | VSCOPE_ACQUIRING => negb (acquire_run_index g =? acq_time (vscope g))
     | _ => false
     end.

(** Whether a call of [vscopeAcquire] takes the Halted case, which puts the
    cursor back to 0 (line 75). *)
Definition resets_cursor (g : Globals) : bool :=
  gate_open g && VscopeState_eqb (state (vscope g)) VSCOPE_HALTED.

(** The values of the sources at the ticks of a sequence of calls that
    capture a frame, the latest first. *)
Fixpoint frames_of (N : Z) (cs : list call) (g : Globals) : list Memory :=
  match cs with
  | [] => []
  | c :: cs' =>
      match do_call N c g with
      | Some g' =>
          frames_of N cs' g'
          ++ match c with
             | Tick mem => if captures g then [mem] else []
             | Trigger => []
             end
      | None => []
      end
  end.

(** No tick of the sequence takes the Halted case. *)
Fixpoint cursor_kept (N : Z) (cs : list call) (g : Globals) : bool :=
  match cs with
  | [] => true
  | c :: cs' =>
      match c with
      | Tick _ => negb (resets_cursor g)
      | Trigger => true
      end
      && match do_call N c g with
         | Some g' => cursor_kept N cs' g'
         | None => true
         end
  end.

(** The rows behind [cursor] hold the frames [hist] (the latest first): the
    [k]-th latest frame is in row [cursor - 1 - k] modulo the buffer size,
    every bound channel slot below [N] with the value its source had. *)
Definition holds_frames (N : Z) (v : VscopeStruct) (cursor : Z)
    (hist : list Memory) : Prop :=
  forall (k : nat) (m : Memory),
    hist !! k = Some m ->
    Z.of_nat k < buffer_size v ->
    forall (c : Z) (s : source),
      0 <= c < N ->
      frame v !! c = Some s ->
      buffer v !! ((cursor - 1 - Z.of_nat k) mod buffer_size v, c)
      = Some (m s).

(** What the host and the timer do to the logger: a call of an entry
    point, or a write of the request field. *)
Inductive host_op : Type :=
  | Call (c : call)
  | Request (r : VscopeState).

Definition do_op (N : Z) (o : host_op) (g : Globals) : option Globals :=
  match o with
  | Call c => do_call N c g
  | Request r => Some (host_request r g)
  end.

Fixpoint run_ops (N : Z) (os : list host_op) (g : Globals)
  : option Globals :=
  match os with
  | [] => Some g
  | o :: os' =>
      match do_op N o g with
      | Some g' => run_ops N os' g'
      | None => None
      end
  end.

(** The cells of the buffer that hold a sample are inside [size] rows of
    [N] channels, and the cursor is on one of these rows in the states that
    capture. *)
Definition inside_storage (size N : Z) (g : Globals) : Prop :=
  buffer_size (vscope g) = size
  /\ (forall r c : Z,
        is_Some (buffer (vscope g) !! (r, c)) ->
        0 <= r < size /\ 0 <= c < N)
  /\ (state (vscope g) = VSCOPE_HALTED
      \/ state (vscope g) = VSCOPE_MISCONFIGURED
      \/ 0 <= index (vscope g) < size)
  /\ (state (vscope g) = VSCOPE_MISCONFIGURED -> buffer (vscope g) = ∅).

(** A host write of a configuration field. *)
Definition host_acq_time (x : Z) (g : Globals) : Globals :=
  with_vscope (set_acq_time x) g.

(** ** Further configurations to run the logger on *)

Module Scenario.

(** A parameter index outside the two of the header. *)
Definition gain : Z := 5.

(** A second initialisation in the middle of a run. *)
Definition reinit : Globals :=
  vscopeInit 8 10 80 32 0 1 65536 Example.running3.

(** A run requested after that, a trigger and a halt request. *)
Definition session : list host_op :=
  [Request VSCOPE_RUNNING; Call (Tick Example.mem);
   Call (Tick Example.mem); Call (Tick Example.mem); Call Trigger;
   Call (Tick Example.mem); Request VSCOPE_HALTED; Call (Tick Example.mem)].

(** Sources that change from tick to tick: every source reads [100 * t]
    plus its value in [Example.mem]. *)
Definition mem_at (t : Z) : Memory := fun s => 100 * t + Example.mem s.

(** An acquisition whose [acq_time] the host lowers below the run counter
    while the window is open. *)
Definition overrun : Globals :=
  host_acq_time 2
    (Example.after (Tick <$> replicate 4 Example.mem) Example.triggered3).

End Scenario.

(** ** Arithmetic of the 16-bit counters *)

Lemma wrap16_small (x : Z) : 0 <= x < 65536 -> wrap16 x = x.
Proof. intros H. unfold wrap16. apply Z.mod_small. exact H. Qed.

Lemma wrap16_range (x : Z) : 0 <= wrap16 x < 65536.
Proof. unfold wrap16. apply Z.mod_pos_bound. lia. Qed.

Lemma next_index_mod (v : VscopeStruct) :
  0 <= index v < buffer_size v -> buffer_size v < 65536 ->
  next_index v = (index v + 1) mod buffer_size v.
Proof.
  intros H Hs. unfold next_index.
  rewrite wrap16_small by lia.
  destruct (Z.eqb_spec (index v + 1) (buffer_size v)) as [E | E].
  - rewrite E, Z.mod_same by lia. reflexivity.
  - rewrite Z.mod_small by lia. reflexivity.
Qed.

Lemma next_index_bound (v : VscopeStruct) :
  0 <= index v < buffer_size v -> 0 <= next_index v < buffer_size v.
Proof.
  intros H. unfold next_index.
  pose proof (wrap16_range (index v + 1)) as Hw.
  destruct (Z.eqb_spec (wrap16 (index v + 1)) (buffer_size v)) as [E | E];
    [lia |].
  destruct (Z_lt_dec (index v + 1) 65536) as [Hi | Hi].
  - rewrite wrap16_small in * by lia. lia.
  - lia.
Qed.

(** ** Field assignments leave the record they are given *)

Lemma set_buffer_same (v : VscopeStruct) : set_buffer (buffer v) v = v.
Proof. destruct v; reflexivity. Qed.

(** ** The capture of a frame *)

Section Capture.

Variable N : Z.
Variable mem : Memory.

Lemma save_channels_spec (fuel : nat) :
  forall (i : Z) (v : VscopeStruct),
    0 <= i -> N < 65536 -> (Z.to_nat (N - i) <= fuel)%nat ->
    exists b : gmap (Z * Z) float,
      save_channels N fuel i mem v = Some (set_buffer b v)
      /\ forall r c : Z,
           b !! (r, c) =
           if decide (r = index v /\ i <= c < N)
           then Some (read_source mem (frame v !! c))
           else buffer v !! (r, c).
Proof.
  induction fuel as [| fuel IH]; intros i v Hi HN Hfuel.
  - exists (buffer v). cbn [save_channels].
    destruct (Z.ltb_spec i N) as [Hlt | Hge]; [lia |].
    rewrite set_buffer_same. split; [reflexivity |].
    intros r c. destruct (decide _) as [[_ ?] | _]; [lia | reflexivity].
  - cbn [save_channels].
    destruct (Z.ltb_spec i N) as [Hlt | Hge].
    + rewrite (wrap16_small (i + 1)) by lia.
      destruct (IH (i + 1)
                  (set_buffer
                     (<[(index v, i) := read_source mem (frame v !! i)]>
                        (buffer v)) v)) as (b & Hb & Hcell);
        [lia | lia | lia |].
      exists b. split; [exact Hb |].
      intros r c. rewrite Hcell. cbn [index frame buffer set_buffer].
      destruct (decide (r = index v /\ i + 1 <= c < N)) as [[-> Hc] | Hn].
      * destruct (decide _) as [_ | Hn']; [reflexivity | lia].
      * destruct (decide (r = index v /\ i <= c < N)) as [[-> Hc] | Hn'].
        -- assert (c = i) as -> by lia. apply lookup_insert_eq.
        -- apply lookup_insert_ne. intros [= <- <-]. lia.
    + exists (buffer v). rewrite set_buffer_same. split; [reflexivity |].
      intros r c. destruct (decide _) as [[_ ?] | _]; [lia | reflexivity].
Qed.

Lemma saveFrameToBuffer_spec (g : Globals) :
  N < 65536 ->
  exists b : gmap (Z * Z) float,
    saveFrameToBuffer N mem g = Some (captured b g)
    /\ forall r c : Z, b !! (r, c) = cell_after_capture N mem (vscope g) r c.
Proof.
  intros HN. unfold saveFrameToBuffer.
  destruct (save_channels_spec channel_fuel 0 (vscope g)) as (b & Hb & Hcell);
    [lia | exact HN | unfold channel_fuel; lia |].
  rewrite Hb. exists b. split.
  - unfold captured, next_index. cbn [index buffer_size set_buffer set_index].
    destruct (_ =? _); reflexivity.
  - intros r c. rewrite Hcell. reflexivity.
Qed.

End Capture.

(** ** One call of the tick *)

Arguments saveFrameToBuffer : simpl never.

Section Tick.

Variable N : Z.
Variable mem : Memory.

Lemma gate_open_tick (g : Globals) :
  gate_open g = true ->
  vscopeAcquire N mem g = acquire_switch N mem (set_acquire_divider 0 g).
Proof.
  unfold gate_open, vscopeAcquire. cbn [acquire_divider set_acquire_divider vscope].
  intros H. apply negb_true_iff in H. rewrite H. reflexivity.
Qed.

Lemma gate_closed_tick (g : Globals) :
  gate_open g = false ->
  vscopeAcquire N mem g =
  Some (set_acquire_divider (wrap16 (acquire_divider g + 1)) g).
Proof.
  unfold gate_open, vscopeAcquire. cbn [acquire_divider set_acquire_divider vscope].
  intros H. apply negb_false_iff in H. rewrite H. reflexivity.
Qed.

(** The branches of the switch, one lemma each. *)

Lemma switch_halted (g : Globals) :
  state (vscope g) = VSCOPE_HALTED ->
  acquire_switch N mem g =
  Some (if VscopeState_eqb (request (vscope g)) VSCOPE_RUNNING
        then with_vscope (set_state VSCOPE_RUNNING)
               (with_vscope (set_index 0) g)
        else with_vscope (set_index 0) g).
Proof. intros H. unfold acquire_switch. rewrite H. reflexivity. Qed.

Lemma switch_misconfigured (g : Globals) :
  state (vscope g) = VSCOPE_MISCONFIGURED ->
  acquire_switch N mem g = Some g.
Proof. intros H. unfold acquire_switch. rewrite H. reflexivity. Qed.

Lemma switch_running_halt (g : Globals) :
  state (vscope g) = VSCOPE_RUNNING ->
  request (vscope g) = VSCOPE_HALTED ->
  acquire_switch N mem g =
  saveFrameToBuffer N mem (with_vscope (set_state VSCOPE_HALTED) g).
Proof.
  intros H R. unfold acquire_switch. rewrite H, R. simpl. rewrite R.
  reflexivity.
Qed.

Lemma switch_running_zero_window (g : Globals) :
  state (vscope g) = VSCOPE_RUNNING ->
  request (vscope g) = VSCOPE_ACQUIRING ->
  acq_time (vscope g) = 0 ->
  acquire_switch N mem g =
  saveFrameToBuffer N mem
    (with_vscope (set_first_element (index (vscope g)))
       (with_vscope (set_state VSCOPE_HALTED) g)).
Proof.
  intros H R A. unfold acquire_switch. rewrite H, R. simpl. rewrite R, A.
  reflexivity.
Qed.

Lemma switch_running_arm (g : Globals) :
  state (vscope g) = VSCOPE_RUNNING ->
  request (vscope g) = VSCOPE_ACQUIRING ->
  acq_time (vscope g) <> 0 ->
  acquire_switch N mem g =
  saveFrameToBuffer N mem
    (set_acquire_run_index 1 (with_vscope (set_state VSCOPE_ACQUIRING) g)).
Proof.
  intros H R A. unfold acquire_switch. rewrite H, R. simpl. rewrite R.
  destruct (Z.eqb_spec (acq_time (vscope g)) 0); [contradiction |].
  reflexivity.
Qed.

Lemma switch_running_continue (g : Globals) :
  state (vscope g) = VSCOPE_RUNNING ->
  request (vscope g) = VSCOPE_RUNNING
  \/ request (vscope g) = VSCOPE_MISCONFIGURED ->
  acquire_switch N mem g = saveFrameToBuffer N mem g.
Proof.
  intros H [R | R]; unfold acquire_switch; rewrite H, R; simpl;
    rewrite R; reflexivity.
Qed.

Lemma switch_acquiring_stop (g : Globals) :
  state (vscope g) = VSCOPE_ACQUIRING ->
  acquire_run_index g = acq_time (vscope g) ->
  acquire_switch N mem g =
  Some (with_vscope (set_first_element (index (vscope g)))
          (with_vscope (set_state VSCOPE_HALTED) g)).
Proof.
  intros H R. unfold acquire_switch. rewrite H, R, Z.eqb_refl. reflexivity.
Qed.

Lemma switch_acquiring_capture (g : Globals) :
  state (vscope g) = VSCOPE_ACQUIRING ->
  acquire_run_index g <> acq_time (vscope g) ->
  acquire_switch N mem g =
  saveFrameToBuffer N mem
    (set_acquire_run_index (wrap16 (acquire_run_index g + 1)) g).
Proof.
  intros H R. unfold acquire_switch. rewrite H.
  destruct (Z.eqb_spec (acquire_run_index g) (acq_time (vscope g)));
    [contradiction | reflexivity].
Qed.

End Tick.

(** ** What every call leaves alone *)

(** Case analysis of a tick: the gate, the state, the tests of each branch,
    and the capture where the channel count [HN : N < 65536] lets it
    return. *)
Ltac tick_cases N mem HN :=
  repeat match goal with
         | |- context [if ?c then _ else _] => destruct c; simpl
         | |- context [match state ?v with _ => _ end] =>
             destruct (state v); simpl
         | |- context [saveFrameToBuffer N mem ?x] =>
             destruct (saveFrameToBuffer_spec N mem x HN) as (? & -> & _);
             simpl
         end.

(** The same without the capture lemma: a capture either returns or makes
    the whole call return nothing. *)
Ltac tick_cases_any :=
  repeat match goal with
         | |- context [if ?c then _ else _] => destruct c; simpl
         | |- context [match state ?v with _ => _ end] =>
             destruct (state v); simpl
         end;
  try (unfold saveFrameToBuffer;
       destruct (save_channels _ _ _ _ _); try discriminate).

(** A tick returns whenever the channel count fits the 16-bit loop counter;
    it writes neither a setting nor the request, the parameters or the
    channel names. *)
Lemma tick_returns (N : Z) (mem : Memory) (g : Globals) :
  N < 65536 ->
  exists g' : Globals,
    vscopeAcquire N mem g = Some g'
    /\ same_settings (vscope g) (vscope g')
    /\ request (vscope g') = request (vscope g)
    /\ rt_buffer g' = rt_buffer g
    /\ vscope_channel_names g' = vscope_channel_names g.
Proof.
  intros HN. unfold vscopeAcquire, acquire_switch, same_settings.
  tick_cases N mem HN; eexists; (split; [reflexivity |]); simpl; tauto.
Qed.

Lemma trigger_settings (g : Globals) :
  same_settings (vscope g) (vscope (vscopeTrigger g))
  /\ state (vscope (vscopeTrigger g)) = state (vscope g)
  /\ index (vscope (vscopeTrigger g)) = index (vscope g)
  /\ acquire_divider (vscopeTrigger g) = acquire_divider g
  /\ acquire_run_index (vscopeTrigger g) = acquire_run_index g
  /\ frames_saved (vscopeTrigger g) = frames_saved g.
Proof.
  unfold vscopeTrigger, same_settings.
  destruct (VscopeState_eqb _ _); simpl; tauto.
Qed.

(** ** The trigger *)

(** C8: [vscopeTrigger] called in state Running sets the request to
    Acquiring and changes nothing else; called in state Halted, Acquiring or
    Misconfigured it changes nothing at all. *)
Theorem trigger_effect (g : Globals) :
  (state (vscope g) = VSCOPE_RUNNING ->
   vscopeTrigger g = with_vscope (set_request VSCOPE_ACQUIRING) g
   /\ request (vscope (vscopeTrigger g)) = VSCOPE_ACQUIRING
   /\ set_request (request (vscope g)) (vscope (vscopeTrigger g)) = vscope g
   /\ rt_buffer (vscopeTrigger g) = rt_buffer g
   /\ vscope_channel_names (vscopeTrigger g) = vscope_channel_names g
   /\ acquire_divider (vscopeTrigger g) = acquire_divider g
   /\ acquire_run_index (vscopeTrigger g) = acquire_run_index g
   /\ frames_saved (vscopeTrigger g) = frames_saved g)
  /\ (state (vscope g) = VSCOPE_HALTED
      \/ state (vscope g) = VSCOPE_ACQUIRING
      \/ state (vscope g) = VSCOPE_MISCONFIGURED ->
      vscopeTrigger g = g).
Proof.
  split.
  - intros H. unfold vscopeTrigger. rewrite H. simpl.
    repeat split; try reflexivity.
    destruct g as [v ? ? ? ? ?]; destruct v; reflexivity.
  - intros [H | [H | H]]; unfold vscopeTrigger; rewrite H; reflexivity.
Qed.

Lemma trigger_effect_witness :
  request (vscope (vscopeTrigger Example.running3)) = VSCOPE_ACQUIRING
  /\ vscopeTrigger Example.init = Example.init.
Proof.
  split.
  - apply (trigger_effect Example.running3). vm_compute. reflexivity.
  - apply (trigger_effect Example.init). left. vm_compute. reflexivity.
Defined.

(** ** Initialisation and the inert state *)






(** ** The tick in state Halted *)

(** C7: every decimation-qualifying tick taken in state Halted sets the
    write cursor to 0 and captures nothing; with the request at Running the
    same tick moves to state Running with the cursor at 0, so that the first
    frame of the run, captured by the next qualifying tick, goes to buffer
    row 0. *)
Theorem halted_tick_resets_cursor (N : Z) (mem : Memory) (g : Globals) :
  gate_open g = true ->
  state (vscope g) = VSCOPE_HALTED ->
  exists g' : Globals,
    vscopeAcquire N mem g = Some g'
    /\ index (vscope g') = 0
    /\ buffer (vscope g') = buffer (vscope g)
    /\ frames_saved g' = frames_saved g
    /\ (request (vscope g) <> VSCOPE_RUNNING ->
        state (vscope g') = VSCOPE_HALTED)
    /\ (request (vscope g) = VSCOPE_RUNNING ->
        state (vscope g') = VSCOPE_RUNNING
        /\ forall (mem2 : Memory) (g1 : Globals),
             N < 65536 ->
             vscope g1 = vscope g' ->
             gate_open g1 = true ->
             exists g2 : Globals,
               vscopeAcquire N mem2 g1 = Some g2
               /\ state (vscope g2) = VSCOPE_RUNNING
               /\ forall c : Z,
                    0 <= c < N ->
                    buffer (vscope g2) !! (0, c)
                    = Some (read_source mem2 (frame (vscope g) !! c))).
Proof.
  intros Hopen Hst. rewrite gate_open_tick by exact Hopen.
  rewrite switch_halted by exact Hst. cbn [vscope set_acquire_divider].
  destruct (request (vscope g)) eqn:R; cbn [VscopeState_eqb];
    eexists; (split; [reflexivity |]); simpl;
    repeat split; try congruence.
  intros mem2 g1 HN Hv Hopen1.
  rewrite gate_open_tick by exact Hopen1.
  rewrite switch_running_continue
    by (cbn [vscope set_acquire_divider]; rewrite Hv; simpl; tauto).
  destruct (saveFrameToBuffer_spec N mem2 (set_acquire_divider 0 g1) HN)
    as (b & -> & Hcell).
  eexists. split; [reflexivity |].
  cbn [captured vscope set_acquire_divider set_index set_buffer state buffer].
  rewrite Hv. split; [reflexivity |].
  intros c Hc. rewrite Hcell. unfold cell_after_capture.
  cbn [vscope set_acquire_divider]. rewrite Hv. simpl.
  destruct (decide _) as [_ | Hn]; [reflexivity | lia].
Qed.

Lemma halted_tick_resets_cursor_witness :
  exists g' g2 : Globals,
    vscopeAcquire 10 Example.mem Example.started = Some g'
    /\ index (vscope g') = 0
    /\ state (vscope g') = VSCOPE_RUNNING
    /\ vscopeAcquire 10 Example.mem g' = Some g2
    /\ buffer (vscope g2) !! (0, 5) = Some (Example.mem temperature).
Proof.
  destruct (halted_tick_resets_cursor 10 Example.mem Example.started)
    as (g' & E & Hi & _ & _ & _ & Hr);
    [vm_compute; reflexivity | vm_compute; reflexivity |].
  destruct Hr as (Hst & Hnext); [vm_compute; reflexivity |].
  assert (Hg : Example.after [Tick Example.mem] Example.started = g').
  { unfold Example.after, Example.channels. cbn [run_calls do_call].
    rewrite E. reflexivity. }
  subst g'.
  destruct (Hnext Example.mem
              (Example.after [Tick Example.mem] Example.started))
    as (g2 & E2 & _ & Hrow);
    [lia | reflexivity | vm_compute; reflexivity |].
  eexists. exists g2. split; [exact E |]. split; [exact Hi |].
  split; [exact Hst |]. split; [exact E2 |].
  rewrite (Hrow 5) by lia. vm_compute. reflexivity.
Defined.

(** ** Leaving state Running *)

(** What a capture does to the globals it is given. *)
Lemma capture_effect (N : Z) (mem : Memory) (g : Globals) :
  N < 65536 ->
  exists g' : Globals,
    saveFrameToBuffer N mem g = Some g'
    /\ frames_saved g' = S (frames_saved g)
    /\ index (vscope g') = next_index (vscope g)
    /\ (forall r c : Z,
          buffer (vscope g') !! (r, c)
          = cell_after_capture N mem (vscope g) r c)
    /\ state (vscope g') = state (vscope g)
    /\ request (vscope g') = request (vscope g)
    /\ first_element (vscope g') = first_element (vscope g)
    /\ same_settings (vscope g) (vscope g')
    /\ acquire_divider g' = acquire_divider g
    /\ acquire_run_index g' = acquire_run_index g.
Proof.
  intros HN.
  destruct (saveFrameToBuffer_spec N mem g HN) as (b & E & Hcell).
  exists (captured b g). split; [exact E |].
  unfold same_settings. simpl. repeat split; try reflexivity.
  exact Hcell.
Qed.

(** The cells of a captured frame: every bound slot of the row at the
    cursor holds the value of its source, and no other cell has changed. *)
Lemma capture_cells (N : Z) (mem : Memory) (v : VscopeStruct)
    (b : gmap (Z * Z) float) :
  (forall r c : Z, b !! (r, c) = cell_after_capture N mem v r c) ->
  (forall (c : Z) (s : source),
     0 <= c < N -> frame v !! c = Some s ->
     b !! (index v, c) = Some (mem s))
  /\ (forall r c : Z,
        ~ (r = index v /\ 0 <= c < N) -> b !! (r, c) = buffer v !! (r, c)).
Proof.
  intros Hcell. split.
  - intros c s Hc Hs. rewrite Hcell. unfold cell_after_capture.
    destruct (decide _) as [_ | Hn]; [| tauto].
    rewrite Hs. reflexivity.
  - intros r c Hn. rewrite Hcell. unfold cell_after_capture.
    destruct (decide _) as [Hy | _]; [tauto | reflexivity].
Qed.

(** C3, as the code has it: on a decimation-qualifying tick in state Running
    with the request at Halted the state becomes Halted and a frame is
    captured on that tick as on every other tick in state Running: the row
    at the cursor receives the channel values and the cursor advances by one,
    back to 0 when it reaches the buffer size. *)
Theorem running_halt_request_captures (N : Z) (mem : Memory) (g : Globals) :
  N < 65536 ->
  gate_open g = true ->
  state (vscope g) = VSCOPE_RUNNING ->
  request (vscope g) = VSCOPE_HALTED ->
  exists g' : Globals,
    vscopeAcquire N mem g = Some g'
    /\ state (vscope g') = VSCOPE_HALTED
    /\ frames_saved g' = S (frames_saved g)
    /\ (forall (c : Z) (s : source),
          0 <= c < N ->
          frame (vscope g) !! c = Some s ->
          buffer (vscope g') !! (index (vscope g), c) = Some (mem s))
    /\ (forall r c : Z,
          ~ (r = index (vscope g) /\ 0 <= c < N) ->
          buffer (vscope g') !! (r, c) = buffer (vscope g) !! (r, c))
    /\ index (vscope g') = next_index (vscope g)
    /\ (0 <= index (vscope g) < buffer_size (vscope g) ->
        buffer_size (vscope g) < 65536 ->
        index (vscope g')
        = (index (vscope g) + 1) mod buffer_size (vscope g))
    /\ first_element (vscope g') = first_element (vscope g).
Proof.
  intros HN Hopen Hst Hreq.
  rewrite gate_open_tick by exact Hopen.
  rewrite switch_running_halt by assumption.
  destruct (capture_effect N mem
              (with_vscope (set_state VSCOPE_HALTED) (set_acquire_divider 0 g))
              HN)
    as (g' & E & Hf & Hi & Hcell & Hs & _ & Hfe & _).
  exists g'. split; [exact E |].
  split; [rewrite Hs; reflexivity |].
  split; [exact Hf |].
  split; [exact (proj1 (capture_cells N mem _ _ Hcell)) |].
  split; [exact (proj2 (capture_cells N mem _ _ Hcell)) |].
  split; [exact Hi |].
  split; [| exact Hfe].
  intros Hc Hb. rewrite Hi. apply (next_index_mod (vscope g) Hc Hb).
Qed.

Lemma running_halt_request_captures_witness :
  exists g' : Globals,
    vscopeAcquire 10 Example.mem
      (host_request VSCOPE_HALTED Example.running3) = Some g'
    /\ state (vscope g') = VSCOPE_HALTED
    /\ frames_saved g' = 4%nat
    /\ index (vscope g') = 4
    /\ buffer (vscope g')
       !! (index (vscope (host_request VSCOPE_HALTED Example.running3)), 2)
       = Some (Example.mem voltage_measurement).
Proof.
  destruct (running_halt_request_captures 10 Example.mem
              (host_request VSCOPE_HALTED Example.running3))
    as (g' & E & Hs & Hf & Hcell & _ & Hi & _).
  - lia.
  - vm_compute. reflexivity.
  - vm_compute. reflexivity.
  - vm_compute. reflexivity.
  - exists g'. split; [exact E |]. split; [exact Hs |].
    split; [rewrite Hf; vm_compute; reflexivity |].
    split; [rewrite Hi; vm_compute; reflexivity |].
    refine (Hcell 2 voltage_measurement _ _);
      vm_compute; repeat split; discriminate || reflexivity.
Defined.

(** C3 as stated fails: three frames into a run the host requests Halted;
    the next tick does not leave the buffer and the cursor as they were. *)
Lemma running_halt_request_counterexample :
  ~ exists g' : Globals,
      vscopeAcquire 10 Example.mem
        (host_request VSCOPE_HALTED Example.running3) = Some g'
      /\ state (vscope g') = VSCOPE_HALTED
      /\ buffer (vscope g')
         = buffer (vscope (host_request VSCOPE_HALTED Example.running3))
      /\ index (vscope g')
         = index (vscope (host_request VSCOPE_HALTED Example.running3))
      /\ frames_saved g'
         = frames_saved (host_request VSCOPE_HALTED Example.running3).
Proof.
  intros (g' & E & _ & _ & Hi & _).
  vm_compute in E. injection E as <-. vm_compute in Hi. discriminate Hi.
Qed.

(** C2, where the code departs from it: on a decimation-qualifying tick in
    state Running with the request at Acquiring and [acq_time] zero the
    state becomes Halted and [first_element] takes the value of the cursor,
    as the claim says and as on the terminal tick of a window; but the tick
    then runs into the capture that ends the Running case: it writes a frame
    in the row that [first_element] marks and advances the cursor, so that
    the stop mark is left one row behind the cursor, on the newest frame. *)
Theorem zero_window_halts_and_captures
    (N : Z) (mem : Memory) (g : Globals) :
  N < 65536 ->
  gate_open g = true ->
  state (vscope g) = VSCOPE_RUNNING ->
  request (vscope g) = VSCOPE_ACQUIRING ->
  acq_time (vscope g) = 0 ->
  exists g' : Globals,
    vscopeAcquire N mem g = Some g'
    /\ state (vscope g') = VSCOPE_HALTED
    /\ first_element (vscope g') = index (vscope g)
    /\ frames_saved g' = S (frames_saved g)
    /\ (forall (c : Z) (s : source),
          0 <= c < N ->
          frame (vscope g) !! c = Some s ->
          buffer (vscope g') !! (index (vscope g), c) = Some (mem s))
    /\ (forall r c : Z,
          ~ (r = index (vscope g) /\ 0 <= c < N) ->
          buffer (vscope g') !! (r, c) = buffer (vscope g) !! (r, c))
    /\ index (vscope g') = next_index (vscope g)
    /\ (0 <= index (vscope g) < buffer_size (vscope g) ->
        buffer_size (vscope g) < 65536 ->
        index (vscope g')
        = (index (vscope g) + 1) mod buffer_size (vscope g))
    /\ (0 <= index (vscope g) < buffer_size (vscope g) ->
        1 < buffer_size (vscope g) < 65536 ->
        first_element (vscope g') <> index (vscope g')).
Proof.
  intros HN Hopen Hst Hreq Hacq.
  rewrite gate_open_tick by exact Hopen.
  rewrite switch_running_zero_window by assumption.
  destruct (capture_effect N mem
              (with_vscope
                 (set_first_element
                    (index (vscope (set_acquire_divider 0 g))))
                 (with_vscope (set_state VSCOPE_HALTED)
                    (set_acquire_divider 0 g)))
              HN)
    as (g' & E & Hf & Hi & Hcell & Hs & _ & Hfe & _).
  exists g'. split; [exact E |].
  split; [rewrite Hs; reflexivity |].
  split; [rewrite Hfe; reflexivity |].
  split; [exact Hf |].
  split; [exact (proj1 (capture_cells N mem _ _ Hcell)) |].
  split; [exact (proj2 (capture_cells N mem _ _ Hcell)) |].
  split; [exact Hi |].
  split.
  - intros Hc Hb. rewrite Hi. apply (next_index_mod (vscope g) Hc Hb).
  - intros Hc Hb. rewrite Hfe, Hi.
    change (index (vscope g) <> next_index (vscope g)).
    unfold next_index. rewrite wrap16_small by lia.
    destruct (Z.eqb_spec (index (vscope g) + 1) (buffer_size (vscope g)));
      lia.
Qed.

Lemma zero_window_halts_and_captures_witness :
  exists g' : Globals,
    vscopeAcquire 10 Example.mem Example.zero_window_triggered = Some g'
    /\ state (vscope g') = VSCOPE_HALTED
    /\ first_element (vscope g') = 3
    /\ frames_saved g' = 4%nat
    /\ index (vscope g') = 4
    /\ buffer (vscope g')
       !! (index (vscope Example.zero_window_triggered), 0)
       = Some (Example.mem voltage_setpoint).
Proof.
  destruct (zero_window_halts_and_captures 10 Example.mem
              Example.zero_window_triggered)
    as (g' & E & Hs & Hfe & Hf & Hcell & _ & Hi & _).
  - lia.
  - vm_compute. reflexivity.
  - vm_compute. reflexivity.
  - vm_compute. reflexivity.
  - vm_compute. reflexivity.
  - exists g'. split; [exact E |]. split; [exact Hs |].
    split; [rewrite Hfe; vm_compute; reflexivity |].
    split; [rewrite Hf; vm_compute; reflexivity |].
    split; [rewrite Hi; vm_compute; reflexivity |].
    refine (Hcell 0 voltage_setpoint _ _);
      vm_compute; repeat split; discriminate || reflexivity.
Defined.

(** At the failing input of C2: with an empty window, the tick after the
    trigger halts and records the cursor, but it does write the buffer and
    move the cursor. *)
Lemma zero_window_counterexample :
  ~ exists g' : Globals,
      vscopeAcquire 10 Example.mem Example.zero_window_triggered = Some g'
      /\ state (vscope g') = VSCOPE_HALTED
      /\ first_element (vscope g')
         = index (vscope Example.zero_window_triggered)
      /\ buffer (vscope g') = buffer (vscope Example.zero_window_triggered)
      /\ index (vscope g') = index (vscope Example.zero_window_triggered)
      /\ frames_saved g' = frames_saved Example.zero_window_triggered.
Proof.
  intros (g' & E & _ & _ & _ & Hi & _).
  vm_compute in E. injection E as <-. vm_compute in Hi. discriminate Hi.
Qed.

(** ** The cursor stays inside the buffer *)

(** The cursor after a tick is the cursor before it, 0, or the cursor that
    a capture leaves. *)
Lemma tick_cursor (N : Z) (mem : Memory) (g : Globals) :
  N < 65536 ->
  exists g' : Globals,
    vscopeAcquire N mem g = Some g'
    /\ (index (vscope g') = index (vscope g)
        \/ index (vscope g') = 0
        \/ index (vscope g') = next_index (vscope g)).
Proof.
  intros HN. unfold vscopeAcquire, acquire_switch.
  tick_cases N mem HN; eexists; (split; [reflexivity |]); simpl; tauto.
Qed.

Lemma call_keeps_cursor_in_buffer (N : Z) (c : call) (g : Globals) :
  N < 65536 ->
  0 <= index (vscope g) < buffer_size (vscope g) ->
  exists g' : Globals,
    do_call N c g = Some g'
    /\ buffer_size (vscope g') = buffer_size (vscope g)
    /\ 0 <= index (vscope g') < buffer_size (vscope g').
Proof.
  intros HN Hc. destruct c as [mem |]; cbn [do_call].
  - destruct (tick_returns N mem g HN) as (g' & E & Hset & _).
    destruct (tick_cursor N mem g HN) as (g'' & E' & Hi).
    rewrite E in E'. injection E' as <-.
    exists g'. split; [exact E |].
    destruct Hset as (_ & Hb & _). split; [exact Hb |].
    rewrite Hb.
    pose proof (next_index_bound (vscope g) Hc).
    destruct Hi as [-> | [-> | ->]]; lia.
  - exists (vscopeTrigger g). split; [reflexivity |].
    destruct (trigger_settings g) as ((_ & Hb & _) & _ & Hi & _).
    rewrite Hb, Hi. split; [reflexivity | exact Hc].
Qed.

(** C9: when the write cursor is below [buffer_size] before a tick or a
    trigger (so [buffer_size] is at least 1), the call leaves [buffer_size]
    as it is and the cursor below it; the same holds after any sequence of
    ticks and triggers.  A cursor at or above [buffer_size] is not brought
    back by the equality test of the wrap: a capture moves it one further
    up. *)
Theorem cursor_stays_in_buffer (N : Z) :
  N < 65536 ->
  (forall (c : call) (g : Globals),
     1 <= buffer_size (vscope g) ->
     0 <= index (vscope g) < buffer_size (vscope g) ->
     exists g' : Globals,
       do_call N c g = Some g'
       /\ buffer_size (vscope g') = buffer_size (vscope g)
       /\ 0 <= index (vscope g') < buffer_size (vscope g'))
  /\ (forall (cs : list call) (g : Globals),
        1 <= buffer_size (vscope g) ->
        0 <= index (vscope g) < buffer_size (vscope g) ->
        exists g' : Globals,
          run_calls N cs g = Some g'
          /\ buffer_size (vscope g') = buffer_size (vscope g)
          /\ 0 <= index (vscope g') < buffer_size (vscope g'))
  /\ (forall (mem : Memory) (g : Globals),
        0 <= buffer_size (vscope g) <= index (vscope g) ->
        index (vscope g) < 65535 ->
        exists g' : Globals,
          saveFrameToBuffer N mem g = Some g'
          /\ index (vscope g') = index (vscope g) + 1).
Proof.
  intros HN. split; [| split].
  - intros c g _ Hc. apply call_keeps_cursor_in_buffer; assumption.
  - induction cs as [| c cs IH]; intros g Hb Hc.
    + exists g. cbn. tauto.
    + destruct (call_keeps_cursor_in_buffer N c g HN Hc)
        as (g1 & E & Hb1 & Hc1).
      cbn [run_calls]. rewrite E.
      destruct (IH g1) as (g' & E' & Hb' & Hc'); [lia | exact Hc1 |].
      exists g'. split; [exact E' |]. split; [congruence | exact Hc'].
  - intros mem g Hc Hu.
    destruct (capture_effect N mem g HN) as (g' & E & _ & Hi & _).
    exists g'. split; [exact E |]. rewrite Hi. unfold next_index.
    rewrite wrap16_small by lia.
    destruct (Z.eqb_spec (index (vscope g) + 1) (buffer_size (vscope g)));
      [lia | reflexivity].
Qed.

Lemma cursor_stays_in_buffer_witness :
  (exists g' : Globals,
     do_call 10 (Tick Example.mem) Example.running3 = Some g'
     /\ buffer_size (vscope g') = buffer_size (vscope Example.running3)
     /\ 0 <= index (vscope g') < buffer_size (vscope g'))
  /\ (exists g' : Globals,
        run_calls 10 [Tick Example.mem; Trigger; Tick Example.mem]
          Example.running3 = Some g'
        /\ buffer_size (vscope g') = buffer_size (vscope Example.running3)
        /\ 0 <= index (vscope g') < buffer_size (vscope g'))
  /\ (exists g' : Globals,
        saveFrameToBuffer 10 Example.mem
          (with_vscope (set_index 9) Example.running3) = Some g'
        /\ index (vscope g')
           = index (vscope (with_vscope (set_index 9) Example.running3)) + 1).
Proof.
  destruct (cursor_stays_in_buffer 10) as (H1 & H2 & H3); [lia |].
  split; [| split].
  - apply H1; vm_compute; repeat split; discriminate || reflexivity.
  - apply H2; vm_compute; repeat split; discriminate || reflexivity.
  - apply H3; vm_compute; repeat split; discriminate || reflexivity.
Defined.

(** ** The decimation gate *)

(** The static gate counter stays below 65535: a call leaves it at 0 or
    below the 16-bit divisor. *)
Lemma gate_counter_bound (N : Z) (mem : Memory) (g g' : Globals) :
  divider (vscope g) < 65536 ->
  vscopeAcquire N mem g = Some g' ->
  0 <= acquire_divider g' < 65535.
Proof.
  intros Hd. unfold vscopeAcquire.
  cbn [acquire_divider set_acquire_divider vscope].
  pose proof (wrap16_range (acquire_divider g + 1)) as Hw.
  destruct (Z.ltb_spec (wrap16 (acquire_divider g + 1)) (divider (vscope g))).
  - intros [= <-]. simpl. lia.
  - unfold acquire_switch.
    tick_cases_any; intros [= <-]; simpl; lia.
Qed.

(** So the counter is below 65535 in every state that calls lead to, from
    [boot] on, as long as the divisor is a 16-bit value. *)
Lemma calls_keep_gate_counter (N : Z) (cs : list call) :
  N < 65536 ->
  forall g : Globals,
    divider (vscope g) < 65536 ->
    0 <= acquire_divider g < 65535 ->
    exists g' : Globals,
      run_calls N cs g = Some g'
      /\ divider (vscope g') = divider (vscope g)
      /\ 0 <= acquire_divider g' < 65535.
Proof.
  intros HN. induction cs as [| c cs IH]; intros g Hd Hc.
  - exists g. cbn. tauto.
  - cbn [run_calls]. destruct c as [mem |]; cbn [do_call].
    + destruct (tick_returns N mem g HN) as (g1 & E & Hset & _).
      destruct Hset as (_ & _ & _ & Hd1 & _).
      pose proof (gate_counter_bound N mem g g1 Hd E) as Hc1.
      rewrite E. destruct (IH g1) as (g' & E' & Hd' & Hc'); [lia | lia |].
      exists g'. split; [exact E' |]. split; [congruence | exact Hc'].
    + destruct (trigger_settings g)
        as ((_ & _ & _ & Hd1 & _) & _ & _ & Hc1 & _).
      destruct (IH (vscopeTrigger g)) as (g' & E' & Hd' & Hc'); [lia | lia |].
      exists g'. split; [exact E' |]. split; [congruence | exact Hc'].
Qed.

(** After [vscopeInit] on the zeroed globals the cursor is inside a buffer
    of at least one frame, the divisor is 1 and the gate counter 0. *)
Lemma init_cursor_in_buffer (SIZE N MEMORY LEN KP KI W : Z) :
  1 <= SIZE < 65536 ->
  let g := vscopeInit SIZE N MEMORY LEN KP KI W boot in
  0 <= index (vscope g) < buffer_size (vscope g)
  /\ buffer_size (vscope g) = SIZE
  /\ acq_time (vscope g) = SIZE
  /\ divider (vscope g) = 1
  /\ acquire_divider g = 0.
Proof.
  intros HS. cbn.
  destruct (_ >? _); cbn; rewrite ?Z.sub_0_r, !wrap16_small by lia;
    repeat split; lia.
Qed.

(** Writing the divisor commutes with the state machine, which never reads
    it. *)
Lemma save_channels_set_divider (N : Z) (mem : Memory) (d : Z) (fuel : nat) :
  forall (i : Z) (v : VscopeStruct),
    save_channels N fuel i mem (set_divider d v)
    = option_map (set_divider d) (save_channels N fuel i mem v).
Proof.
  induction fuel as [| fuel IH]; intros i v; cbn [save_channels];
    destruct (i <? N); try reflexivity.
  cbn [index frame buffer set_divider]. rewrite <- IH. reflexivity.
Qed.

Lemma saveFrameToBuffer_set_divider
    (N : Z) (mem : Memory) (d : Z) (g : Globals) :
  saveFrameToBuffer N mem (with_vscope (set_divider d) g)
  = option_map (with_vscope (set_divider d)) (saveFrameToBuffer N mem g).
Proof.
  unfold saveFrameToBuffer. cbn [vscope with_vscope].
  rewrite save_channels_set_divider.
  destruct (save_channels N channel_fuel 0 mem (vscope g)) as [v |];
    [| reflexivity].
  cbn [option_map]. unfold with_vscope. simpl.
  destruct (_ =? _); reflexivity.
Qed.

Lemma acquire_switch_set_divider
    (N : Z) (mem : Memory) (d : Z) (g : Globals) :
  acquire_switch N mem (with_vscope (set_divider d) g)
  = option_map (with_vscope (set_divider d)) (acquire_switch N mem g).
Proof.
  unfold acquire_switch. cbn [vscope with_vscope state set_divider].
  destruct (state (vscope g)); simpl.
  - destruct (VscopeState_eqb _ _); reflexivity.
  - rewrite <- saveFrameToBuffer_set_divider.
    destruct (VscopeState_eqb (request (vscope g)) VSCOPE_HALTED); simpl;
      destruct (VscopeState_eqb (request (vscope g)) VSCOPE_ACQUIRING); simpl;
      try destruct (acq_time (vscope g) =? 0); reflexivity.
  - destruct (_ =? _); simpl; [reflexivity |].
    rewrite <- saveFrameToBuffer_set_divider. reflexivity.
  - reflexivity.
Qed.

(** C10: with the divisor field at 0 the tick runs the state machine on
    every call, as with a divisor of 1: the gate counter is at least 1 when
    it is compared, so neither divisor holds the call back, and the call
    with divisor 1 does what the call with divisor 0 does (the results
    differ in the divisor field alone). *)
Theorem divisor_zero_evaluates_every_tick
    (N : Z) (mem : Memory) (g : Globals) :
  0 <= acquire_divider g < 65535 ->
  divider (vscope g) = 0 ->
  1 <= wrap16 (acquire_divider g + 1)
  /\ gate_open g = true
  /\ gate_open (with_vscope (set_divider 1) g) = true
  /\ vscopeAcquire N mem g
     = acquire_switch N mem (set_acquire_divider 0 g)
  /\ vscopeAcquire N mem (with_vscope (set_divider 1) g)
     = option_map (with_vscope (set_divider 1)) (vscopeAcquire N mem g).
Proof.
  intros Hc Hd.
  assert (Hw : wrap16 (acquire_divider g + 1) = acquire_divider g + 1)
    by (apply wrap16_small; lia).
  assert (Hopen : gate_open g = true).
  { unfold gate_open. rewrite Hw, Hd.
    destruct (Z.ltb_spec (acquire_divider g + 1) 0); [lia | reflexivity]. }
  assert (Hopen1 : gate_open (with_vscope (set_divider 1) g) = true).
  { unfold gate_open.
    cbn [acquire_divider with_vscope vscope divider set_divider].
    rewrite Hw.
    destruct (Z.ltb_spec (acquire_divider g + 1) 1); [lia | reflexivity]. }
  split; [lia |]. split; [exact Hopen |]. split; [exact Hopen1 |].
  split; [apply gate_open_tick; exact Hopen |].
  rewrite (gate_open_tick N mem _ Hopen1), (gate_open_tick N mem _ Hopen).
  change (set_acquire_divider 0 (with_vscope (set_divider 1) g))
    with (with_vscope (set_divider 1) (set_acquire_divider 0 g)).
  apply acquire_switch_set_divider.
Qed.

Lemma divisor_zero_evaluates_every_tick_witness :
  gate_open (with_vscope (set_divider 0) Example.running3) = true
  /\ vscopeAcquire 10 Example.mem
       (with_vscope (set_divider 1)
          (with_vscope (set_divider 0) Example.running3))
     = option_map (with_vscope (set_divider 1))
         (vscopeAcquire 10 Example.mem
            (with_vscope (set_divider 0) Example.running3)).
Proof.
  destruct (divisor_zero_evaluates_every_tick 10 Example.mem
              (with_vscope (set_divider 0) Example.running3))
    as (_ & H1 & _ & _ & H2).
  - vm_compute. split; discriminate || reflexivity.
  - reflexivity.
  - split; [exact H1 | exact H2].
Defined.

(** ** Free running *)

(** A qualifying tick in state Running with the request at Running. *)
Lemma running_tick (N : Z) (mem : Memory) (g : Globals) :
  N < 65536 ->
  gate_open g = true ->
  state (vscope g) = VSCOPE_RUNNING ->
  request (vscope g) = VSCOPE_RUNNING ->
  exists g' : Globals,
    vscopeAcquire N mem g = Some g'
    /\ state (vscope g') = VSCOPE_RUNNING
    /\ request (vscope g') = VSCOPE_RUNNING
    /\ frames_saved g' = S (frames_saved g)
    /\ index (vscope g') = next_index (vscope g)
    /\ (forall r c : Z,
          buffer (vscope g') !! (r, c)
          = cell_after_capture N mem (vscope g) r c)
    /\ same_settings (vscope g) (vscope g')
    /\ acquire_divider g' = 0.
Proof.
  intros HN Hopen Hst Hreq.
  rewrite gate_open_tick by exact Hopen.
  rewrite switch_running_continue by (simpl; tauto).
  destruct (capture_effect N mem (set_acquire_divider 0 g) HN)
    as (g' & E & Hf & Hi & Hcell & Hs & Hr & _ & Hset & Hd & _).
  exists g'. split; [exact E |].
  rewrite Hs, Hr. simpl in *. tauto.
Qed.

(** With the divisor at 1 the gate is open whenever the counter has a value
    that a call can leave. *)
Lemma gate_open_divisor_one (g : Globals) :
  0 <= acquire_divider g < 65535 ->
  divider (vscope g) = 1 ->
  gate_open g = true.
Proof.
  intros Hc Hd. unfold gate_open. rewrite wrap16_small, Hd by lia.
  destruct (Z.ltb_spec (acquire_divider g + 1) 1); [lia | reflexivity].
Qed.

Lemma free_run_cursor (N : Z) (ms : list Memory) :
  N < 65536 ->
  forall g : Globals,
    state (vscope g) = VSCOPE_RUNNING ->
    request (vscope g) = VSCOPE_RUNNING ->
    divider (vscope g) = 1 ->
    0 <= acquire_divider g < 65535 ->
    0 <= index (vscope g) < buffer_size (vscope g) ->
    buffer_size (vscope g) < 65536 ->
    exists g' : Globals,
      run_calls N (Tick <$> ms) g = Some g'
      /\ state (vscope g') = VSCOPE_RUNNING
      /\ frames_saved g' = (frames_saved g + length ms)%nat
      /\ index (vscope g')
         = (index (vscope g) + Z.of_nat (length ms))
           mod buffer_size (vscope g).
Proof.
  intros HN. induction ms as [| m ms IH]; intros g Hst Hreq Hd Hc Hi Hb.
  - exists g. cbn. rewrite Z.add_0_r, Z.mod_small by lia.
    repeat split; auto with arith.
  - destruct (running_tick N m g HN (gate_open_divisor_one g Hc Hd) Hst Hreq)
      as (g1 & E & Hst1 & Hreq1 & Hf1 & Hi1 & _ & Hset & Hc1).
    destruct Hset as (_ & Hb1 & _ & Hd1 & _).
    pose proof (next_index_bound (vscope g) Hi) as Hnb.
    destruct (IH g1) as (g' & E' & Hst' & Hf' & Hi');
      [assumption | assumption | congruence | lia | rewrite Hi1, Hb1; lia
      | lia |].
    exists g'. cbn [fmap list_fmap run_calls do_call].
    change (list_fmap Memory call Tick ms) with (Tick <$> ms).
    rewrite E. split; [exact E' |]. split; [exact Hst' |].
    split; [rewrite Hf', Hf1; cbn [length]; lia |].
    rewrite Hi', Hi1, Hb1, (next_index_mod (vscope g) Hi Hb).
    rewrite Z.add_mod_idemp_l by lia. f_equal. cbn [length]. lia.
Qed.

(** The gate counter after a call that passed the gate, and the divisor
    after any call. *)
Lemma open_tick_counter (N : Z) (mem : Memory) (g g' : Globals) :
  gate_open g = true ->
  vscopeAcquire N mem g = Some g' ->
  acquire_divider g' = 0.
Proof.
  intros Hopen. rewrite gate_open_tick by exact Hopen.
  unfold acquire_switch.
  tick_cases_any; intros [= <-]; reflexivity.
Qed.

(** With divisor [d] and gate counter [k], the ticks that pass the gate are
    those that bring the count of calls to a multiple of [d]. *)
Lemma evaluations_count (N : Z) (d : Z) (ms : list Memory) :
  N < 65536 -> 1 <= d ->
  forall g : Globals,
    divider (vscope g) = d ->
    0 <= acquire_divider g < d ->
    d < 65536 ->
    Z.of_nat (evaluations N (Tick <$> ms) g)
    = (acquire_divider g + Z.of_nat (length ms)) / d.
Proof.
  intros HN Hd1. induction ms as [| m ms IH]; intros g Hd Hc Hu.
  - cbn. rewrite Z.add_0_r, Z.div_small by lia. reflexivity.
  - cbn [fmap list_fmap evaluations do_call].
    change (list_fmap Memory call Tick ms) with (Tick <$> ms).
    destruct (tick_returns N m g HN) as (g1 & E & Hset & _).
    destruct Hset as (_ & _ & _ & Hd1' & _).
    rewrite E.
    destruct (gate_open g) eqn:Hopen.
    + pose proof (open_tick_counter N m g g1 Hopen E) as Hc1.
      unfold gate_open in Hopen. rewrite wrap16_small, Hd in Hopen by lia.
      apply negb_true_iff in Hopen. apply Z.ltb_ge in Hopen.
      rewrite Nat2Z.inj_add, (IH g1) by (try congruence; lia).
      rewrite Hc1. cbn [length].
      replace (acquire_divider g + Z.of_nat (S (length ms)))
        with (Z.of_nat (length ms) + 1 * d) by lia.
      rewrite Z.div_add by lia. rewrite Z.add_0_l. lia.
    + rewrite (gate_closed_tick N m g Hopen) in E. injection E as <-.
      unfold gate_open in Hopen. rewrite wrap16_small, Hd in Hopen by lia.
      apply negb_false_iff in Hopen. apply Z.ltb_lt in Hopen.
      rewrite Nat2Z.inj_add, (IH _)
        by (cbn [vscope acquire_divider set_acquire_divider];
            rewrite ?wrap16_small by lia; (assumption || lia)).
      cbn [acquire_divider set_acquire_divider length].
      rewrite wrap16_small by lia. change (Z.of_nat 0) with 0.
      rewrite Z.add_0_l. f_equal. lia.
Qed.

(** With the divisor at 1 every tick of a run passes the gate. *)
Lemma divisor_one_run (N : Z) (ms : list Memory) :
  N < 65536 ->
  forall g : Globals,
    divider (vscope g) = 1 ->
    0 <= acquire_divider g < 65535 ->
    exists g' : Globals,
      run_calls N (Tick <$> ms) g = Some g'
      /\ divider (vscope g') = 1
      /\ 0 <= acquire_divider g' < 65535
      /\ evaluations N (Tick <$> ms) g = length ms.
Proof.
  intros HN. induction ms as [| m ms IH]; intros g Hd Hc.
  - exists g. cbn. tauto.
  - cbn [fmap list_fmap run_calls evaluations do_call length].
    change (list_fmap Memory call Tick ms) with (Tick <$> ms).
    pose proof (gate_open_divisor_one g Hc Hd) as Hopen.
    destruct (tick_returns N m g HN) as (g1 & E & Hset & _).
    destruct Hset as (_ & _ & _ & Hd1 & _).
    pose proof (open_tick_counter N m g g1 Hopen E) as Hc1.
    rewrite E, Hopen.
    destruct (IH g1) as (g' & E' & Hd' & Hc' & Hev'); [congruence | lia |].
    exists g'. rewrite Hev'. tauto.
Qed.

(** C6: in state Running with the request left at Running, and the cursor
    inside the buffer, a decimation-qualifying tick captures exactly one
    frame, writing for each channel slot the value of its bound source into
    the row at the cursor and nothing else, and advances the cursor by one
    modulo the buffer size; with divisor 1 every tick qualifies and [n]
    ticks advance the cursor by [n] modulo the buffer size; with divisor [d]
    and a fresh gate counter the ticks that run the state machine are every
    [d]-th one, and a tick held back by the gate only counts. *)
Theorem free_running_capture (N : Z) :
  N < 65536 ->
  (forall (mem : Memory) (g : Globals),
     gate_open g = true ->
     state (vscope g) = VSCOPE_RUNNING ->
     request (vscope g) = VSCOPE_RUNNING ->
     0 <= index (vscope g) < buffer_size (vscope g) ->
     buffer_size (vscope g) < 65536 ->
     exists g' : Globals,
       vscopeAcquire N mem g = Some g'
       /\ state (vscope g') = VSCOPE_RUNNING
       /\ frames_saved g' = S (frames_saved g)
       /\ (forall (c : Z) (s : source),
             0 <= c < N ->
             frame (vscope g) !! c = Some s ->
             buffer (vscope g') !! (index (vscope g), c) = Some (mem s))
       /\ (forall r c : Z,
             ~ (r = index (vscope g) /\ 0 <= c < N) ->
             buffer (vscope g') !! (r, c) = buffer (vscope g) !! (r, c))
       /\ index (vscope g')
          = (index (vscope g) + 1) mod buffer_size (vscope g))
  /\ (forall (ms : list Memory) (g : Globals),
        state (vscope g) = VSCOPE_RUNNING ->
        request (vscope g) = VSCOPE_RUNNING ->
        divider (vscope g) = 1 ->
        0 <= acquire_divider g < 65535 ->
        0 <= index (vscope g) < buffer_size (vscope g) ->
        buffer_size (vscope g) < 65536 ->
        exists g' : Globals,
          run_calls N (Tick <$> ms) g = Some g'
          /\ state (vscope g') = VSCOPE_RUNNING
          /\ frames_saved g' = (frames_saved g + length ms)%nat
          /\ evaluations N (Tick <$> ms) g = length ms
          /\ index (vscope g')
             = (index (vscope g) + Z.of_nat (length ms))
               mod buffer_size (vscope g))
  /\ (forall (d : Z) (ms : list Memory) (g : Globals),
        1 <= d < 65536 ->
        divider (vscope g) = d ->
        acquire_divider g = 0 ->
        Z.of_nat (evaluations N (Tick <$> ms) g)
        = Z.of_nat (length ms) / d)
  /\ (forall (mem : Memory) (g : Globals),
        gate_open g = false ->
        vscopeAcquire N mem g
        = Some (set_acquire_divider (wrap16 (acquire_divider g + 1)) g)).
Proof.
  intros HN. split; [| split; [| split]].
  - intros mem g Hopen Hst Hreq Hi Hb.
    destruct (running_tick N mem g HN Hopen Hst Hreq)
      as (g' & E & Hst' & _ & Hf & Hi' & Hcell & _).
    exists g'. split; [exact E |]. split; [exact Hst' |].
    split; [exact Hf |].
    split; [exact (proj1 (capture_cells N mem _ _ Hcell)) |].
    split; [exact (proj2 (capture_cells N mem _ _ Hcell)) |].
    rewrite Hi'. apply next_index_mod; assumption.
  - intros ms g Hst Hreq Hd Hc Hi Hb.
    destruct (free_run_cursor N ms HN g Hst Hreq Hd Hc Hi Hb)
      as (g' & E & Hst' & Hf & Hi').
    exists g'. split; [exact E |]. split; [exact Hst' |].
    split; [exact Hf |]. split; [| exact Hi'].
    destruct (divisor_one_run N ms HN g Hd Hc) as (_ & _ & _ & _ & Hev).
    exact Hev.
  - intros d ms g Hd Hdg Hc.
    rewrite (evaluations_count N d ms HN) by lia.
    rewrite Hc, Z.add_0_l. reflexivity.
  - intros mem g Hopen. apply gate_closed_tick. exact Hopen.
Qed.

Lemma free_running_capture_witness :
  (exists g' : Globals,
     vscopeAcquire 10 Example.mem Example.running3 = Some g'
     /\ frames_saved g' = 4%nat
     /\ buffer (vscope g') !! (index (vscope Example.running3), 4)
        = Some (Example.mem voltage_limit)
     /\ index (vscope g') = 4)
  /\ (exists g' : Globals,
        run_calls 10 (Tick <$> replicate 7 Example.mem) Example.running3
        = Some g'
        /\ frames_saved g' = 10%nat
        /\ index (vscope g') = 2)
  /\ Z.of_nat
       (evaluations 10 (Tick <$> replicate 7 Example.mem)
          (with_vscope (set_divider 3) Example.running3)) = 2
  /\ exists k : Z,
       vscopeAcquire 10 Example.mem
         (with_vscope (set_divider 3) Example.running3)
       = Some (set_acquire_divider k
                 (with_vscope (set_divider 3) Example.running3)).
Proof.
  destruct (free_running_capture 10) as (H1 & H2 & H3 & H4); [lia |].
  split; [| split; [| split]].
  - destruct (H1 Example.mem Example.running3)
      as (g' & E & _ & Hf & Hcell & _ & Hi);
      [vm_compute; reflexivity | vm_compute; reflexivity
      | vm_compute; reflexivity
      | vm_compute; split; discriminate || reflexivity
      | vm_compute; reflexivity |].
    exists g'. split; [exact E |].
    split; [rewrite Hf; vm_compute; reflexivity |].
    split; [| rewrite Hi; vm_compute; reflexivity].
    refine (Hcell 4 voltage_limit _ _);
      vm_compute; repeat split; discriminate || reflexivity.
  - destruct (H2 (replicate 7 Example.mem) Example.running3)
      as (g' & E & _ & Hf & _ & Hi);
      [vm_compute; reflexivity | vm_compute; reflexivity
      | vm_compute; reflexivity
      | vm_compute; split; discriminate || reflexivity
      | vm_compute; split; discriminate || reflexivity
      | vm_compute; reflexivity |].
    exists g'. split; [exact E |].
    split; [rewrite Hf | rewrite Hi]; vm_compute; reflexivity.
  - rewrite (H3 3 (replicate 7 Example.mem)
               (with_vscope (set_divider 3) Example.running3));
      vm_compute; repeat split; discriminate || reflexivity.
  - eexists.
    apply (H4 Example.mem (with_vscope (set_divider 3) Example.running3)).
    vm_compute. reflexivity.
Defined.

(** ** The acquisition window *)

(** Calls that do not pass the gate, made outside state Running, change
    nothing but the gate counter. *)
Lemma quiet_calls (N : Z) (cs : list call) :
  forall g : Globals,
    state (vscope g) <> VSCOPE_RUNNING ->
    evaluations N cs g = 0%nat ->
    exists g' : Globals,
      run_calls N cs g = Some g'
      /\ vscope g' = vscope g
      /\ acquire_run_index g' = acquire_run_index g
      /\ frames_saved g' = frames_saved g.
Proof.
  induction cs as [| c cs IH]; intros g Hst Hev.
  - exists g. cbn. tauto.
  - cbn [evaluations run_calls] in *. destruct c as [m |]; cbn [do_call] in *.
    + destruct (gate_open g) eqn:Hopen; [discriminate Hev |].
      rewrite (gate_closed_tick N m g Hopen) in *.
      destruct (IH (set_acquire_divider (wrap16 (acquire_divider g + 1)) g)
                  Hst Hev) as (g' & E & Hv & Hr & Hf).
      exists g'. split; [exact E |]. simpl in *. tauto.
    + assert (Ht : vscopeTrigger g = g).
      { unfold vscopeTrigger. destruct (state (vscope g)); try reflexivity.
        contradiction. }
      rewrite Ht in *. apply IH; assumption.
Qed.

(** Inside the window: every qualifying tick counts one and captures one
    frame, as long as the counter has not reached [acq_time]. *)
Lemma acquiring_calls (N : Z) (cs : list call) :
  N < 65536 ->
  forall g : Globals,
    state (vscope g) = VSCOPE_ACQUIRING ->
    0 <= acquire_run_index g ->
    acquire_run_index g + Z.of_nat (evaluations N cs g)
    <= acq_time (vscope g) ->
    acq_time (vscope g) < 65536 ->
    exists g' : Globals,
      run_calls N cs g = Some g'
      /\ state (vscope g') = VSCOPE_ACQUIRING
      /\ acq_time (vscope g') = acq_time (vscope g)
      /\ acquire_run_index g'
         = acquire_run_index g + Z.of_nat (evaluations N cs g)
      /\ frames_saved g' = (frames_saved g + evaluations N cs g)%nat
      /\ (0 <= index (vscope g) < buffer_size (vscope g) ->
          buffer_size (vscope g) < 65536 ->
          index (vscope g')
          = (index (vscope g) + Z.of_nat (evaluations N cs g))
            mod buffer_size (vscope g)).
Proof.
  intros HN. induction cs as [| c cs IH]; intros g Hst Hr Hev Ha.
  - exists g. cbn [run_calls evaluations].
    repeat split; try assumption; try reflexivity; try lia.
    intros Hi Hb. rewrite Z.add_0_r, Z.mod_small by lia. reflexivity.
  - cbn [evaluations run_calls] in *. destruct c as [m |]; cbn [do_call] in *.
    + destruct (gate_open g) eqn:Hopen.
      * assert (Hne : acquire_run_index g <> acq_time (vscope g)) by lia.
        rewrite (gate_open_tick N m g Hopen) in *.
        rewrite switch_acquiring_capture in * by assumption.
        match goal with
        | |- context [saveFrameToBuffer N m ?x] =>
            destruct (capture_effect N m x HN)
              as (g1 & E & Hf1 & Hi1 & _ & Hst1 & _ & _ & Hset & _ & Hr1)
        end.
        destruct Hset as (_ & Hb1 & _ & _ & Ha1 & _).
        change (index (vscope g1) = next_index (vscope g)) in Hi1.
        rewrite E in *. simpl in Hst1, Ha1, Hr1, Hf1, Hb1.
        rewrite wrap16_small in Hr1 by lia.
        destruct (IH g1) as (g' & E' & Hst' & Ha' & Hr' & Hf' & Hi');
          [congruence | lia | lia | lia |].
        exists g'. split; [exact E' |]. split; [exact Hst' |].
        split; [congruence |]. split; [lia |]. split; [lia |].
        intros Hi Hb.
        pose proof (next_index_bound (vscope g) Hi) as Hnb.
        rewrite Hi' by (rewrite ?Hi1, ?Hb1; lia).
        rewrite Hi1, Hb1, (next_index_mod (vscope g) Hi Hb).
        rewrite Z.add_mod_idemp_l by lia. f_equal. lia.
      * rewrite (gate_closed_tick N m g Hopen) in *.
        destruct (IH (set_acquire_divider (wrap16 (acquire_divider g + 1)) g))
          as (g' & E' & Hst' & Ha' & Hr' & Hf' & Hi'); try assumption.
        exists g'. split; [exact E' |]. simpl in *. tauto.
    + assert (Ht : vscopeTrigger g = g).
      { unfold vscopeTrigger. rewrite Hst. reflexivity. }
      rewrite Ht in *. apply IH; assumption.
Qed.

(** From the trigger to the last frame of the window. *)
Lemma window_calls (N : Z) (cs : list call) :
  N < 65536 ->
  forall g : Globals,
    state (vscope g) = VSCOPE_RUNNING ->
    request (vscope g) = VSCOPE_ACQUIRING ->
    0 < acq_time (vscope g) < 65536 ->
    Z.of_nat (evaluations N cs g) = acq_time (vscope g) ->
    exists g' : Globals,
      run_calls N cs g = Some g'
      /\ state (vscope g') = VSCOPE_ACQUIRING
      /\ acq_time (vscope g') = acq_time (vscope g)
      /\ acquire_run_index g' = acq_time (vscope g)
      /\ frames_saved g'
         = (frames_saved g + Z.to_nat (acq_time (vscope g)))%nat
      /\ (0 <= index (vscope g) < buffer_size (vscope g) ->
          buffer_size (vscope g) < 65536 ->
          index (vscope g')
          = (index (vscope g) + acq_time (vscope g))
            mod buffer_size (vscope g)).
Proof.
  intros HN. induction cs as [| c cs IH]; intros g Hst Hreq Ha Hev.
  - cbn in Hev. lia.
  - cbn [evaluations run_calls] in *. destruct c as [m |]; cbn [do_call] in *.
    + destruct (gate_open g) eqn:Hopen.
      * assert (Hne : acq_time (vscope g) <> 0) by lia.
        rewrite (gate_open_tick N m g Hopen) in *.
        rewrite switch_running_arm in * by assumption.
        match goal with
        | |- context [saveFrameToBuffer N m ?x] =>
            destruct (capture_effect N m x HN)
              as (g1 & E & Hf1 & Hi1 & _ & Hst1 & _ & _ & Hset & _ & Hr1)
        end.
        destruct Hset as (_ & Hb1 & _ & _ & Ha1 & _).
        change (index (vscope g1) = next_index (vscope g)) in Hi1.
        rewrite E in *. simpl in Hst1, Ha1, Hr1, Hf1, Hb1.
        destruct (acquiring_calls N cs HN g1)
          as (g' & E' & Hst' & Ha' & Hr' & Hf' & Hi');
          [congruence | lia | lia | lia |].
        exists g'. split; [exact E' |]. split; [exact Hst' |].
        split; [congruence |]. split; [lia |]. split; [lia |].
        intros Hi Hb.
        pose proof (next_index_bound (vscope g) Hi) as Hnb.
        rewrite Hi' by (rewrite ?Hi1, ?Hb1; lia).
        rewrite Hi1, Hb1, (next_index_mod (vscope g) Hi Hb).
        rewrite Z.add_mod_idemp_l by lia. f_equal. lia.
      * rewrite (gate_closed_tick N m g Hopen) in *.
        destruct (IH (set_acquire_divider (wrap16 (acquire_divider g + 1)) g))
          as (g' & E' & Hst' & Ha' & Hr' & Hf' & Hi'); try assumption.
        exists g'. split; [exact E' |]. simpl in *. tauto.
    + destruct (trigger_settings g)
        as ((_ & Hb1 & _ & _ & Ha1 & _) & Hst1 & Hi1 & _ & _ & Hf1).
      assert (Hreq1 : request (vscope (vscopeTrigger g)) = VSCOPE_ACQUIRING).
      { unfold vscopeTrigger. rewrite Hst. reflexivity. }
      destruct (IH (vscopeTrigger g))
        as (g' & E' & Hst' & Ha' & Hr' & Hf' & Hi');
        [congruence | exact Hreq1 | lia | lia |].
      exists g'. split; [exact E' |]. split; [exact Hst' |].
      split; [congruence |]. split; [lia |].
      split; [rewrite Hf', Hf1, Ha1; reflexivity |].
      intros Hi Hb. rewrite Hi' by (rewrite ?Hi1, ?Hb1; lia).
      rewrite Hi1, Hb1, Ha1. reflexivity.
Qed.

(** The terminal tick: the first qualifying tick with the counter at
    [acq_time]. *)
Lemma window_end (N : Z) (cs : list call) :
  forall g : Globals,
    state (vscope g) = VSCOPE_ACQUIRING ->
    acquire_run_index g = acq_time (vscope g) ->
    evaluations N cs g = 1%nat ->
    exists g' : Globals,
      run_calls N cs g = Some g'
      /\ state (vscope g') = VSCOPE_HALTED
      /\ first_element (vscope g') = index (vscope g)
      /\ index (vscope g') = index (vscope g)
      /\ buffer (vscope g') = buffer (vscope g)
      /\ frames_saved g' = frames_saved g.
Proof.
  induction cs as [| c cs IH]; intros g Hst Hr Hev.
  - cbn in Hev. discriminate Hev.
  - cbn [evaluations run_calls] in *. destruct c as [m |]; cbn [do_call] in *.
    + destruct (gate_open g) eqn:Hopen.
      * rewrite (gate_open_tick N m g Hopen) in *.
        rewrite switch_acquiring_stop in * by assumption.
        destruct (quiet_calls N cs
                    (with_vscope
                       (set_first_element
                          (index (vscope (set_acquire_divider 0 g))))
                       (with_vscope (set_state VSCOPE_HALTED)
                          (set_acquire_divider 0 g))))
          as (g' & E' & Hv & _ & Hf); [discriminate | lia |].
        exists g'. split; [exact E' |]. rewrite Hv, Hf. simpl. tauto.
      * rewrite (gate_closed_tick N m g Hopen) in *.
        destruct (IH (set_acquire_divider (wrap16 (acquire_divider g + 1)) g))
          as (g' & E' & H'); try assumption.
        exists g'. split; [exact E' |]. simpl in *. tauto.
    + assert (Ht : vscopeTrigger g = g).
      { unfold vscopeTrigger. rewrite Hst. reflexivity. }
      rewrite Ht in *. apply IH; assumption.
Qed.

(** C1: an acquisition entered from state Running with [acq_time] above 0
    captures exactly [acq_time] frames: the tick of the transition arms the
    run counter at 1 and captures a frame, and the window is over after
    [acq_time] qualifying ticks, with the counter at [acq_time]; the next
    qualifying tick is the terminal one: the state becomes Halted,
    [first_element] takes the value of the cursor, which is where the last
    captured frame left it, and no frame is captured. *)
Theorem acquisition_window (N : Z) (g : Globals) :
  N < 65536 ->
  state (vscope g) = VSCOPE_RUNNING ->
  request (vscope g) = VSCOPE_ACQUIRING ->
  0 < acq_time (vscope g) < 65536 ->
  (forall mem : Memory,
     gate_open g = true ->
     exists g1 : Globals,
       vscopeAcquire N mem g = Some g1
       /\ state (vscope g1) = VSCOPE_ACQUIRING
       /\ acquire_run_index g1 = 1
       /\ frames_saved g1 = S (frames_saved g))
  /\ (forall cs : list call,
        Z.of_nat (evaluations N cs g) = acq_time (vscope g) ->
        exists ga : Globals,
          run_calls N cs g = Some ga
          /\ state (vscope ga) = VSCOPE_ACQUIRING
          /\ acquire_run_index ga = acq_time (vscope g)
          /\ frames_saved ga
             = (frames_saved g + Z.to_nat (acq_time (vscope g)))%nat
          /\ (0 <= index (vscope g) < buffer_size (vscope g) ->
              buffer_size (vscope g) < 65536 ->
              index (vscope ga)
              = (index (vscope g) + acq_time (vscope g))
                mod buffer_size (vscope g))
          /\ forall cs2 : list call,
               evaluations N cs2 ga = 1%nat ->
               exists gh : Globals,
                 run_calls N cs2 ga = Some gh
                 /\ state (vscope gh) = VSCOPE_HALTED
                 /\ first_element (vscope gh) = index (vscope ga)
                 /\ index (vscope gh) = index (vscope ga)
                 /\ buffer (vscope gh) = buffer (vscope ga)
                 /\ frames_saved gh = frames_saved ga).
Proof.
  intros HN Hst Hreq Ha. split.
  - intros mem Hopen.
    rewrite gate_open_tick by exact Hopen.
    rewrite switch_running_arm by (simpl; (assumption || lia)).
    match goal with
    | |- context [saveFrameToBuffer N mem ?x] =>
        destruct (capture_effect N mem x HN)
          as (g1 & E & Hf1 & _ & _ & Hst1 & _ & _ & _ & _ & Hr1)
    end.
    exists g1. split; [exact E |]. simpl in *. tauto.
  - intros cs Hev.
    destruct (window_calls N cs HN g Hst Hreq Ha Hev)
      as (ga & E & Hsta & Haa & Hra & Hfa & Hia).
    exists ga. split; [exact E |]. split; [exact Hsta |].
    split; [exact Hra |]. split; [exact Hfa |]. split; [exact Hia |].
    intros cs2 Hev2. apply window_end; [exact Hsta | congruence | exact Hev2].
Qed.

Lemma acquisition_window_witness :
  exists g1 ga gh : Globals,
    vscopeAcquire 10 Example.mem Example.triggered3 = Some g1
    /\ acquire_run_index g1 = 1
    /\ run_calls 10 (Tick <$> replicate 8 Example.mem) Example.triggered3
       = Some ga
    /\ state (vscope ga) = VSCOPE_ACQUIRING
    /\ frames_saved ga = 11%nat
    /\ run_calls 10 [Tick Example.mem] ga = Some gh
    /\ state (vscope gh) = VSCOPE_HALTED
    /\ first_element (vscope gh) = index (vscope ga)
    /\ frames_saved gh = frames_saved ga.
Proof.
  destruct (acquisition_window 10 Example.triggered3) as (Harm & H);
    [lia | vm_compute; reflexivity | vm_compute; reflexivity
    | vm_compute; split; reflexivity |].
  destruct (Harm Example.mem) as (g1 & E1 & _ & Hr1 & _);
    [vm_compute; reflexivity |].
  destruct (H (Tick <$> replicate 8 Example.mem))
    as (ga & E & Hst & _ & Hf & _ & Hend); [vm_compute; reflexivity |].
  assert (Hga : Example.after (Tick <$> replicate 8 Example.mem)
                  Example.triggered3 = ga).
  { unfold Example.after at 1. unfold Example.channels. rewrite E.
    reflexivity. }
  subst ga.
  destruct (Hend [Tick Example.mem])
    as (gh & E2 & Hst2 & Hfe & _ & _ & Hf2); [vm_compute; reflexivity |].
  exists g1. eexists. exists gh. split; [exact E1 |]. split; [exact Hr1 |].
  split; [exact E |]. split; [exact Hst |].
  split; [rewrite Hf; vm_compute; reflexivity |].
  split; [exact E2 |]. split; [exact Hst2 |]. split; [exact Hfe | exact Hf2].
Defined.

(** ** The worked example *)

(** C4, as the code has it: with [buffer_size] 8, divisor 1 and [acq_time]
    8, starting in state Halted with the request at Running, one tick gives
    state Running with the cursor at 0 and no frame captured; the trigger
    sets the request to Acquiring; the next tick gives state Acquiring with
    one frame captured, the cursor at 1 and the run counter at 1; after 7
    more ticks the eighth frame since arming is captured, the cursor is at
    8 mod 8 = 0, the run counter at 8 and the state still Acquiring; one
    further tick captures nothing and gives state Halted with the cursor at
    0 and [first_element] 0. *)
Theorem worked_example_trace
    (N : Z) (m1 m2 m9 : Memory) (ms : list Memory) (g : Globals) :
  N < 65536 ->
  state (vscope g) = VSCOPE_HALTED ->
  request (vscope g) = VSCOPE_RUNNING ->
  buffer_size (vscope g) = 8 ->
  divider (vscope g) = 1 ->
  acq_time (vscope g) = 8 ->
  0 <= acquire_divider g < 65535 ->
  length ms = 7%nat ->
  exists g1 g2 g3 g4 : Globals,
    vscopeAcquire N m1 g = Some g1
    /\ state (vscope g1) = VSCOPE_RUNNING
    /\ index (vscope g1) = 0
    /\ frames_saved g1 = frames_saved g
    /\ request (vscope (vscopeTrigger g1)) = VSCOPE_ACQUIRING
    /\ vscopeAcquire N m2 (vscopeTrigger g1) = Some g2
    /\ state (vscope g2) = VSCOPE_ACQUIRING
    /\ frames_saved g2 = (frames_saved g + 1)%nat
    /\ index (vscope g2) = 1
    /\ acquire_run_index g2 = 1
    /\ run_calls N (Tick <$> ms) g2 = Some g3
    /\ state (vscope g3) = VSCOPE_ACQUIRING
    /\ frames_saved g3 = (frames_saved g + 8)%nat
    /\ index (vscope g3) = 0
    /\ acquire_run_index g3 = 8
    /\ vscopeAcquire N m9 g3 = Some g4
    /\ state (vscope g4) = VSCOPE_HALTED
    /\ frames_saved g4 = (frames_saved g + 8)%nat
    /\ index (vscope g4) = 0
    /\ first_element (vscope g4) = 0.
Proof.
  intros HN Hst Hreq Hb Hd Ha Hc Hlen.
  (* the tick that leaves Halted *)
  pose proof (gate_open_divisor_one g Hc Hd) as Hopen.
  pose (g1 := with_vscope (set_state VSCOPE_RUNNING)
                (with_vscope (set_index 0) (set_acquire_divider 0 g))).
  assert (E1 : vscopeAcquire N m1 g = Some g1).
  { rewrite gate_open_tick by exact Hopen.
    rewrite switch_halted by exact Hst.
    cbn [vscope set_acquire_divider]. rewrite Hreq. reflexivity. }
  (* the trigger *)
  pose (gt := with_vscope (set_request VSCOPE_ACQUIRING) g1).
  assert (Et : vscopeTrigger g1 = gt) by reflexivity.
  (* the tick that arms the window *)
  assert (Hopent : gate_open gt = true)
    by (apply gate_open_divisor_one; simpl; [lia | exact Hd]).
  assert (E2 : exists g2 : Globals,
             vscopeAcquire N m2 gt = Some g2
             /\ state (vscope g2) = VSCOPE_ACQUIRING
             /\ frames_saved g2 = S (frames_saved g)
             /\ index (vscope g2) = 1
             /\ acquire_run_index g2 = 1
             /\ acquire_divider g2 = 0
             /\ same_settings (vscope g) (vscope g2)).
  { rewrite gate_open_tick by exact Hopent.
    rewrite switch_running_arm by (simpl; (reflexivity || lia)).
    match goal with
    | |- context [saveFrameToBuffer N m2 ?x] =>
        destruct (capture_effect N m2 x HN)
          as (g2 & E & Hf2 & Hi2 & _ & Hst2 & _ & _ & Hset & Hc2 & Hr2)
    end.
    exists g2. split; [exact E |].
    unfold next_index in Hi2. simpl in Hst2, Hf2, Hi2, Hr2, Hc2, Hset.
    rewrite Hb in Hi2. change (index (vscope g2) = 1) in Hi2.
    unfold same_settings in *. simpl in Hset. tauto. }
  destruct E2 as (g2 & E2 & Hst2 & Hf2 & Hi2 & Hr2 & Hc2 & Hset2).
  destruct Hset2 as (_ & Hb2 & _ & Hd2 & Ha2 & _).
  (* seven more frames *)
  destruct (divisor_one_run N ms HN g2) as (g3 & E3 & Hd3 & Hc3 & Hev);
    [congruence | lia |].
  destruct (acquiring_calls N (Tick <$> ms) HN g2)
    as (g3' & E3' & Hst3 & Ha3 & Hr3 & Hf3 & Hi3);
    [exact Hst2 | lia | rewrite Hev; lia | lia |].
  rewrite E3 in E3'. injection E3' as <-.
  rewrite Hev, Hlen in *.
  specialize (Hi3 ltac:(lia) ltac:(lia)).
  rewrite Hi2, Hb2, Hb in Hi3. change (index (vscope g3) = 0) in Hi3.
  (* the terminal tick *)
  pose proof (gate_open_divisor_one g3 Hc3 Hd3) as Hopen3.
  pose (g4 := with_vscope
                (set_first_element (index (vscope (set_acquire_divider 0 g3))))
                (with_vscope (set_state VSCOPE_HALTED)
                   (set_acquire_divider 0 g3))).
  assert (E4 : vscopeAcquire N m9 g3 = Some g4).
  { rewrite gate_open_tick by exact Hopen3.
    apply switch_acquiring_stop; simpl; [exact Hst3 | lia]. }
  exists g1, g2, g3, g4.
  rewrite Et.
  repeat split; try assumption; try reflexivity; simpl; try lia.
Qed.

Lemma worked_example_trace_witness :
  exists g1 g2 g3 g4 : Globals,
    vscopeAcquire 10 Example.mem Example.started = Some g1
    /\ state (vscope g1) = VSCOPE_RUNNING
    /\ index (vscope g1) = 0
    /\ vscopeAcquire 10 Example.mem (vscopeTrigger g1) = Some g2
    /\ state (vscope g2) = VSCOPE_ACQUIRING
    /\ index (vscope g2) = 1
    /\ run_calls 10 (Tick <$> replicate 7 Example.mem) g2 = Some g3
    /\ state (vscope g3) = VSCOPE_ACQUIRING
    /\ index (vscope g3) = 0
    /\ vscopeAcquire 10 Example.mem g3 = Some g4
    /\ state (vscope g4) = VSCOPE_HALTED
    /\ index (vscope g4) = 0
    /\ first_element (vscope g4) = 0.
Proof.
  destruct (worked_example_trace 10 Example.mem Example.mem Example.mem
              (replicate 7 Example.mem) Example.started)
    as (g1 & g2 & g3 & g4 & H);
    [lia | vm_compute; reflexivity | vm_compute; reflexivity
    | vm_compute; reflexivity | vm_compute; reflexivity
    | vm_compute; reflexivity | vm_compute; split; discriminate || reflexivity
    | reflexivity |].
  exists g1, g2, g3, g4. tauto.
Defined.

(** C4 as stated fails on its own configuration: the tick that leaves
    Halted captures nothing and leaves the cursor at 0, not at 1. *)
Lemma worked_example_counterexample :
  ~ exists g1 g2 g3 : Globals,
      vscopeAcquire 10 Example.mem Example.started = Some g1
      /\ state (vscope g1) = VSCOPE_RUNNING
      /\ index (vscope g1) = 1
      /\ request (vscope (vscopeTrigger g1)) = VSCOPE_ACQUIRING
      /\ vscopeAcquire 10 Example.mem (vscopeTrigger g1) = Some g2
      /\ state (vscope g2) = VSCOPE_ACQUIRING
      /\ frames_saved g2 = S (frames_saved g1)
      /\ index (vscope g2) = 2
      /\ acquire_run_index g2 = 1
      /\ run_calls 10 (Tick <$> replicate 7 Example.mem) g2 = Some g3
      /\ state (vscope g3) = VSCOPE_HALTED
      /\ index (vscope g3) = 2
      /\ first_element (vscope g3) = 2.
Proof.
  intros (g1 & g2 & g3 & E & _ & Hi & _).
  vm_compute in E. injection E as <-. vm_compute in Hi. discriminate Hi.
Qed.

(** ** What sequences of calls leave alone *)

Lemma calls_keep_settings (N : Z) (cs : list call) :
  N < 65536 ->
  forall g : Globals,
    exists g' : Globals,
      run_calls N cs g = Some g'
      /\ same_settings (vscope g) (vscope g')
      /\ rt_buffer g' = rt_buffer g
      /\ vscope_channel_names g' = vscope_channel_names g.
Proof.
  intros HN. induction cs as [| c cs IH]; intros g.
  - exists g. cbn. unfold same_settings. tauto.
  - cbn [run_calls]. destruct c as [mem |]; cbn [do_call].
    + destruct (tick_returns N mem g HN) as (g1 & E & Hset & _ & Hrt & Hnm).
      rewrite E. destruct (IH g1) as (g' & E' & Hset' & Hrt' & Hnm').
      exists g'. split; [exact E' |].
      unfold same_settings in *. intuition congruence.
    + destruct (trigger_settings g) as (Hset & _).
      destruct (IH (vscopeTrigger g)) as (g' & E' & Hset' & Hrt' & Hnm').
      exists g'. split; [exact E' |].
      assert (rt_buffer (vscopeTrigger g) = rt_buffer g
              /\ vscope_channel_names (vscopeTrigger g)
                 = vscope_channel_names g) as [Hrt Hnm].
      { unfold vscopeTrigger. destruct (VscopeState_eqb _ _); split;
          reflexivity. }
      unfold same_settings in *. intuition congruence.
Qed.

(** X1: a run-time parameter written with [vscopeSetRtBuffer] is read back
    by [vscopeGetRtBuffer] at the same index, also after any sequence of
    ticks and triggers; the write changes no other parameter and nothing of
    the acquisition engine. *)
Theorem rt_buffer_round_trip
    (N : Z) (i : Z) (x : float) (cs : list call) (g : Globals) :
  N < 65536 ->
  vscopeGetRtBuffer i (vscopeSetRtBuffer i x g) = x
  /\ (forall j : Z,
        j <> i ->
        vscopeGetRtBuffer j (vscopeSetRtBuffer i x g)
        = vscopeGetRtBuffer j g)
  /\ vscope (vscopeSetRtBuffer i x g) = vscope g
  /\ acquire_divider (vscopeSetRtBuffer i x g) = acquire_divider g
  /\ acquire_run_index (vscopeSetRtBuffer i x g) = acquire_run_index g
  /\ exists g' : Globals,
       run_calls N cs (vscopeSetRtBuffer i x g) = Some g'
       /\ vscopeGetRtBuffer i g' = x
       /\ forall j : Z,
            j <> i -> vscopeGetRtBuffer j g' = vscopeGetRtBuffer j g.
Proof.
  intros HN.
  assert (Hsame : vscopeGetRtBuffer i (vscopeSetRtBuffer i x g) = x).
  { unfold vscopeGetRtBuffer, vscopeSetRtBuffer. cbn [rt_buffer].
    rewrite lookup_insert_eq. reflexivity. }
  assert (Hother : forall j : Z,
             j <> i ->
             vscopeGetRtBuffer j (vscopeSetRtBuffer i x g)
             = vscopeGetRtBuffer j g).
  { intros j Hj. unfold vscopeGetRtBuffer, vscopeSetRtBuffer.
    cbn [rt_buffer]. rewrite lookup_insert_ne by congruence. reflexivity. }
  repeat (split; [first [exact Hsame | exact Hother | reflexivity] |]).
  destruct (calls_keep_settings N cs HN (vscopeSetRtBuffer i x g))
    as (g' & E & _ & Hrt & _).
  exists g'. split; [exact E |].
  unfold vscopeGetRtBuffer in *. rewrite Hrt. split; [exact Hsame |].
  exact Hother.
Qed.

Lemma rt_buffer_round_trip_witness :
  exists g' : Globals,
    run_calls 10 [Tick Example.mem; Trigger; Tick Example.mem]
      (vscopeSetRtBuffer Scenario.gain 77 Example.running3) = Some g'
    /\ vscopeGetRtBuffer Scenario.gain g' = 77.
Proof.
  destruct (rt_buffer_round_trip 10 Scenario.gain 77
              [Tick Example.mem; Trigger; Tick Example.mem]
              Example.running3) as (_ & _ & _ & _ & _ & g' & E & Hx & _);
    [lia |].
  exists g'. split; [exact E | exact Hx].
Defined.

(** X2: no sequence of ticks and triggers writes a configuration field
    ([n_ch], [buffer_size], [pre_trig], [divider], [acq_time]), a channel
    binding, a run-time parameter or a channel name; ticks alone do not
    write the request either, and the number of frames captured is at most
    the number of ticks that passed the gate. *)
Theorem calls_write_no_configuration (N : Z) :
  N < 65536 ->
  (forall (cs : list call) (g : Globals),
     exists g' : Globals,
       run_calls N cs g = Some g'
       /\ n_ch (vscope g') = n_ch (vscope g)
       /\ buffer_size (vscope g') = buffer_size (vscope g)
       /\ pre_trig (vscope g') = pre_trig (vscope g)
       /\ divider (vscope g') = divider (vscope g)
       /\ acq_time (vscope g') = acq_time (vscope g)
       /\ frame (vscope g') = frame (vscope g)
       /\ rt_buffer g' = rt_buffer g
       /\ vscope_channel_names g' = vscope_channel_names g
       /\ (frames_saved g <= frames_saved g'
           <= frames_saved g + evaluations N cs g)%nat)
  /\ (forall (ms : list Memory) (g : Globals),
        exists g' : Globals,
          run_calls N (Tick <$> ms) g = Some g'
          /\ request (vscope g') = request (vscope g)).
Proof.
  intros HN. split.
  - intros cs g.
    destruct (calls_keep_settings N cs HN g) as (g' & E & Hset & Hrt & Hnm).
    exists g'. split; [exact E |]. unfold same_settings in Hset.
    repeat (split; [tauto |]).
    clear Hset Hrt Hnm. revert g g' E.
    induction cs as [| c cs IH]; intros g g' E.
    + cbn in *. injection E as <-. lia.
    + cbn [run_calls evaluations] in *. destruct c as [mem |]; cbn [do_call] in *.
      * destruct (vscopeAcquire N mem g) as [g1 |] eqn:E1; [| discriminate].
        specialize (IH g1 g' E).
        assert (H1 : (frames_saved g <= frames_saved g1
                      <= frames_saved g + if gate_open g then 1 else 0)%nat).
        { destruct (gate_open g) eqn:Hopen.
          - rewrite (gate_open_tick N mem g Hopen) in E1. revert E1.
            unfold acquire_switch. tick_cases N mem HN;
              intros [= <-]; simpl; lia.
          - rewrite (gate_closed_tick N mem g Hopen) in E1.
            injection E1 as <-. simpl. lia. }
        lia.
      * specialize (IH _ g' E).
        destruct (trigger_settings g) as (_ & _ & _ & _ & _ & Hf). lia.
  - induction ms as [| m ms IH]; intros g.
    + exists g. cbn. tauto.
    + cbn [fmap list_fmap run_calls do_call].
      change (list_fmap Memory call Tick ms) with (Tick <$> ms).
      destruct (tick_returns N m g HN) as (g1 & E & _ & Hreq & _).
      rewrite E. destruct (IH g1) as (g' & E' & Hreq').
      exists g'. split; [exact E' | congruence].
Qed.

Lemma calls_write_no_configuration_witness :
  exists g' : Globals,
    run_calls 10 [Tick Example.mem; Trigger; Tick Example.mem]
      Example.running3 = Some g'
    /\ acq_time (vscope g') = acq_time (vscope Example.running3)
    /\ frame (vscope g') = frame (vscope Example.running3).
Proof.
  destruct (calls_write_no_configuration 10) as (H & _); [lia |].
  destruct (H [Tick Example.mem; Trigger; Tick Example.mem]
              Example.running3)
    as (g' & E & _ & _ & _ & _ & Ha & Hfr & _).
  exists g'. split; [exact E |]. split; [exact Ha | exact Hfr].
Defined.

(** ** The transitions of the state machine *)

(** The state after a tick. *)
Lemma tick_state (N : Z) (mem : Memory) (g : Globals) :
  N < 65536 ->
  exists g' : Globals,
    vscopeAcquire N mem g = Some g'
    /\ state (vscope g')
       = if gate_open g then
           match state (vscope g) with
           | VSCOPE_HALTED =>
               if VscopeState_eqb (request (vscope g)) VSCOPE_RUNNING
               then VSCOPE_RUNNING else VSCOPE_HALTED
           | VSCOPE_RUNNING =>
               match request (vscope g) with
               | VSCOPE_HALTED => VSCOPE_HALTED
               | VSCOPE_ACQUIRING =>
                   if acq_time (vscope g) =? 0
                   then VSCOPE_HALTED else VSCOPE_ACQUIRING
               | _ => VSCOPE_RUNNING
               end
           | VSCOPE_ACQUIRING =>
               if acquire_run_index g =? acq_time (vscope g)
               then VSCOPE_HALTED else VSCOPE_ACQUIRING
           | VSCOPE_MISCONFIGURED => VSCOPE_MISCONFIGURED
           end
         else state (vscope g).
Proof.
  intros HN. destruct (gate_open g) eqn:Hopen.
  - rewrite (gate_open_tick N mem g Hopen). unfold acquire_switch.
    cbn [vscope set_acquire_divider acquire_run_index].
    destruct (state (vscope g)) eqn:Hst;
      destruct (request (vscope g)) eqn:Hreq;
      simpl; rewrite ?Hreq; simpl;
      repeat match goal with
             | |- context [if ?c then _ else _] => destruct c; simpl
             | |- context [saveFrameToBuffer N mem ?x] =>
                 destruct (saveFrameToBuffer_spec N mem x HN)
                   as (? & -> & _); simpl
             end;
      eexists; (split; [reflexivity |]); simpl; congruence.
  - rewrite (gate_closed_tick N mem g Hopen).
    eexists. split; [reflexivity |]. reflexivity.
Qed.

(** X3: the transitions that a tick can make are Halted to Running,
    Running to Halted or Acquiring, and Acquiring to Halted; a tick never
    enters or leaves Misconfigured, never goes from Halted to Acquiring nor
    from Acquiring to Running, and a trigger never changes the state.  So no
    sequence of ticks and triggers that starts outside Misconfigured ends in
    it. *)
Theorem state_transitions (N : Z) :
  N < 65536 ->
  (forall (mem : Memory) (g : Globals),
     exists g' : Globals,
       vscopeAcquire N mem g = Some g'
       /\ match state (vscope g), state (vscope g') with
          | VSCOPE_HALTED, (VSCOPE_HALTED | VSCOPE_RUNNING) => True
          | VSCOPE_RUNNING,
            (VSCOPE_RUNNING | VSCOPE_HALTED | VSCOPE_ACQUIRING) => True
          | VSCOPE_ACQUIRING, (VSCOPE_ACQUIRING | VSCOPE_HALTED) => True
          | VSCOPE_MISCONFIGURED, VSCOPE_MISCONFIGURED => True
          | _, _ => False
          end)
  /\ (forall g : Globals, state (vscope (vscopeTrigger g)) = state (vscope g))
  /\ (forall (cs : list call) (g : Globals),
        state (vscope g) <> VSCOPE_MISCONFIGURED ->
        exists g' : Globals,
          run_calls N cs g = Some g'
          /\ state (vscope g') <> VSCOPE_MISCONFIGURED).
Proof.
  intros HN.
  assert (Hedge : forall (mem : Memory) (g : Globals),
             exists g' : Globals,
               vscopeAcquire N mem g = Some g'
               /\ match state (vscope g), state (vscope g') with
                  | VSCOPE_HALTED, (VSCOPE_HALTED | VSCOPE_RUNNING) => True
                  | VSCOPE_RUNNING,
                    (VSCOPE_RUNNING | VSCOPE_HALTED | VSCOPE_ACQUIRING) =>
                      True
                  | VSCOPE_ACQUIRING, (VSCOPE_ACQUIRING | VSCOPE_HALTED) =>
                      True
                  | VSCOPE_MISCONFIGURED, VSCOPE_MISCONFIGURED => True
                  | _, _ => False
                  end).
  { intros mem g. destruct (tick_state N mem g HN) as (g' & E & Hst).
    exists g'. split; [exact E |]. rewrite Hst.
    destruct (gate_open g); destruct (state (vscope g));
      destruct (request (vscope g)); simpl;
      repeat match goal with
             | |- context [if ?c then _ else _] => destruct c
             end; exact I. }
  assert (Htrig : forall g : Globals,
             state (vscope (vscopeTrigger g)) = state (vscope g)).
  { intros g. destruct (trigger_settings g) as (_ & Hs & _). exact Hs. }
  split; [exact Hedge |]. split; [exact Htrig |].
  induction cs as [| c cs IH]; intros g Hst.
  - exists g. split; [reflexivity | exact Hst].
  - cbn [run_calls]. destruct c as [mem |]; cbn [do_call].
    + destruct (Hedge mem g) as (g1 & E & Hedge1). rewrite E.
      apply IH. intros Hm. rewrite Hm in Hedge1.
      destruct (state (vscope g)); tauto.
    + apply IH. rewrite Htrig. exact Hst.
Qed.

Lemma state_transitions_witness :
  exists g' : Globals,
    run_calls 10 [Tick Example.mem; Trigger; Tick Example.mem] Example.init
    = Some g'
    /\ state (vscope g') <> VSCOPE_MISCONFIGURED.
Proof.
  destruct (state_transitions 10) as (_ & _ & H); [lia |].
  apply H. vm_compute. discriminate.
Defined.

(** X4: in state Halted with a request other than Running the logger stays
    Halted through every sequence of ticks and triggers: nothing is
    captured, the buffer, the request and [first_element] keep their values
    and the cursor keeps its value or is 0.  In particular a finished
    acquisition, which leaves the request at Acquiring, is not started
    again. *)
Theorem halted_until_run_requested (N : Z) (cs : list call) (g : Globals) :
  state (vscope g) = VSCOPE_HALTED ->
  request (vscope g) <> VSCOPE_RUNNING ->
  exists g' : Globals,
    run_calls N cs g = Some g'
    /\ state (vscope g') = VSCOPE_HALTED
    /\ request (vscope g') = request (vscope g)
    /\ buffer (vscope g') = buffer (vscope g)
    /\ first_element (vscope g') = first_element (vscope g)
    /\ frames_saved g' = frames_saved g
    /\ (index (vscope g') = index (vscope g) \/ index (vscope g') = 0).
Proof.
  revert g. induction cs as [| c cs IH]; intros g Hst Hreq.
  - exists g. cbn. tauto.
  - assert (Hstep : exists g1 : Globals,
               do_call N c g = Some g1
               /\ state (vscope g1) = VSCOPE_HALTED
               /\ request (vscope g1) = request (vscope g)
               /\ buffer (vscope g1) = buffer (vscope g)
               /\ first_element (vscope g1) = first_element (vscope g)
               /\ frames_saved g1 = frames_saved g
               /\ (index (vscope g1) = index (vscope g)
                   \/ index (vscope g1) = 0)).
    { destruct c as [mem |]; cbn [do_call].
      - destruct (gate_open g) eqn:Hopen.
        + rewrite (gate_open_tick N mem g Hopen).
          rewrite switch_halted by exact Hst.
          cbn [vscope set_acquire_divider].
          assert (Hb : VscopeState_eqb (request (vscope g)) VSCOPE_RUNNING
                       = false)
            by (destruct (request (vscope g)); try reflexivity;
                contradiction).
          rewrite Hb. eexists. split; [reflexivity |]. simpl. tauto.
        + rewrite (gate_closed_tick N mem g Hopen).
          eexists. split; [reflexivity |]. simpl. tauto.
      - unfold vscopeTrigger. rewrite Hst. cbn [VscopeState_eqb].
        eexists. split; [reflexivity |]. tauto. }
    destruct Hstep as (g1 & E & Hst1 & Hreq1 & Hb1 & Hfe1 & Hf1 & Hi1).
    cbn [run_calls]. rewrite E.
    destruct (IH g1) as (g' & E' & Hst' & Hreq' & Hb' & Hfe' & Hf' & Hi');
      [exact Hst1 | congruence |].
    exists g'. split; [exact E' |]. split; [exact Hst' |].
    repeat (split; [congruence |]).
    destruct Hi' as [Hi' | Hi']; [| tauto].
    destruct Hi1 as [Hi1 | Hi1]; [left | right]; congruence.
Qed.

Lemma halted_until_run_requested_witness :
  exists g' : Globals,
    run_calls 10 [Tick Example.mem; Trigger; Tick Example.mem]
      (Example.after (Tick <$> replicate 9 Example.mem) Example.triggered3)
    = Some g'
    /\ state (vscope g') = VSCOPE_HALTED
    /\ frames_saved g'
       = frames_saved
           (Example.after (Tick <$> replicate 9 Example.mem)
              Example.triggered3).
Proof.
  destruct (halted_until_run_requested 10
              [Tick Example.mem; Trigger; Tick Example.mem]
              (Example.after (Tick <$> replicate 9 Example.mem)
                 Example.triggered3))
    as (g' & E & Hst & _ & _ & _ & Hf & _);
    [vm_compute; reflexivity | vm_compute; discriminate |].
  exists g'. split; [exact E |]. split; [exact Hst | exact Hf].
Defined.

(** ** Fields that a tick does not read *)

Section Blind.

(** A change [f] of the structure that the capture neither reads nor
    undoes. *)
Variable N : Z.
Variable mem : Memory.
Variable f : VscopeStruct -> VscopeStruct.
Hypothesis f_index : forall v, index (f v) = index v.
Hypothesis f_frame : forall v, frame (f v) = frame v.
Hypothesis f_buffer : forall v, buffer (f v) = buffer v.
Hypothesis f_buffer_size : forall v, buffer_size (f v) = buffer_size v.
Hypothesis f_acq_time : forall v, acq_time (f v) = acq_time v.
Hypothesis f_state : forall v, state (f v) = state v.
Hypothesis f_set_buffer : forall b v, f (set_buffer b v) = set_buffer b (f v).
Hypothesis f_set_index : forall i v, f (set_index i v) = set_index i (f v).
Hypothesis f_set_state : forall s v, f (set_state s v) = set_state s (f v).
Hypothesis f_set_first_element :
  forall i v, f (set_first_element i v) = set_first_element i (f v).

Lemma save_channels_blind (fuel : nat) :
  forall (i : Z) (v : VscopeStruct),
    save_channels N fuel i mem (f v)
    = option_map f (save_channels N fuel i mem v).
Proof.
  induction fuel as [| fuel IH]; intros i v; cbn [save_channels];
    destruct (i <? N); try reflexivity.
  rewrite f_index, f_frame, f_buffer, <- f_set_buffer. apply IH.
Qed.

Lemma saveFrameToBuffer_blind (g : Globals) :
  saveFrameToBuffer N mem (with_vscope f g)
  = option_map (with_vscope f) (saveFrameToBuffer N mem g).
Proof.
  unfold saveFrameToBuffer. cbn [vscope with_vscope].
  rewrite save_channels_blind.
  destruct (save_channels N channel_fuel 0 mem (vscope g)) as [v |];
    [| reflexivity].
  cbn [option_map]. unfold with_vscope.
  cbn [vscope rt_buffer vscope_channel_names acquire_divider
         acquire_run_index frames_saved].
  rewrite f_index.
  assert (Hi : forall x w, index (set_index x w) = x) by reflexivity.
  assert (Hb : forall x w, buffer_size (set_index x w) = buffer_size w)
    by reflexivity.
  rewrite !Hi, !Hb, f_buffer_size.
  destruct (_ =? _); rewrite <- ?f_set_index; reflexivity.
Qed.

(** In state Acquiring the switch reads none of the fields that [f] may
    change. *)
Lemma acquiring_switch_blind (g : Globals) :
  state (vscope g) = VSCOPE_ACQUIRING ->
  acquire_switch N mem (with_vscope f g)
  = option_map (with_vscope f) (acquire_switch N mem g).
Proof.
  intros Hst. unfold acquire_switch.
  cbn [vscope with_vscope acquire_run_index].
  rewrite f_state, Hst, f_acq_time.
  destruct (_ =? _).
  - cbn [option_map]. unfold with_vscope. simpl.
    rewrite f_index, <- f_set_state, <- f_set_first_element. reflexivity.
  - rewrite <- saveFrameToBuffer_blind. reflexivity.
Qed.

(** In every state, when [f] keeps the request as well. *)
Hypothesis f_request : forall v, request (f v) = request v.

Lemma acquire_switch_blind (g : Globals) :
  acquire_switch N mem (with_vscope f g)
  = option_map (with_vscope f) (acquire_switch N mem g).
Proof.
  destruct (state (vscope g)) eqn:Hst.
  - unfold acquire_switch. cbn [vscope with_vscope].
    rewrite f_state, Hst. cbn [option_map]. f_equal.
    unfold with_vscope. simpl. rewrite f_request.
    destruct (VscopeState_eqb _ _); simpl;
      rewrite ?f_set_state, ?f_set_index; reflexivity.
  - unfold acquire_switch. cbn [vscope with_vscope].
    rewrite f_state, Hst.
    rewrite <- saveFrameToBuffer_blind. f_equal.
    unfold with_vscope. simpl. rewrite f_request.
    destruct (VscopeState_eqb (request (vscope g)) VSCOPE_HALTED); simpl;
      rewrite ?f_request;
      destruct (VscopeState_eqb (request (vscope g)) VSCOPE_ACQUIRING);
      simpl; rewrite ?f_acq_time; try destruct (acq_time (vscope g) =? 0);
      simpl;
      rewrite ?f_index, ?f_set_first_element, ?f_set_state; reflexivity.
  - apply acquiring_switch_blind. exact Hst.
  - unfold acquire_switch. cbn [vscope with_vscope].
    rewrite f_state, Hst. reflexivity.
Qed.

End Blind.

(** A tick through the gate, for a change of the structure that leaves the
    divisor alone. *)
Ltac blind_tick lemma :=
  unfold vscopeAcquire;
  cbn [acquire_divider set_acquire_divider vscope with_vscope divider
         set_request set_pre_trig set_n_ch];
  match goal with
  | |- context [if ?c then _ else _] => destruct c
  end;
  [reflexivity | apply lemma; reflexivity || assumption].

(** X5: in state Acquiring a tick does not read the request: whatever the
    host writes there while the window is open, a halt request included,
    the tick does what it does without the write. *)
Theorem acquiring_ignores_request
    (N : Z) (mem : Memory) (r : VscopeState) (g : Globals) :
  state (vscope g) = VSCOPE_ACQUIRING ->
  vscopeAcquire N mem (host_request r g)
  = option_map (host_request r) (vscopeAcquire N mem g).
Proof.
  intros Hst. unfold host_request.
  blind_tick (fun H1 H2 H3 H4 H5 H6 H7 H8 H9 H10 =>
                acquiring_switch_blind N mem (set_request r)
                  H1 H2 H3 H4 H5 H6 H7 H8 H9 H10
                  (set_acquire_divider 0
                     (set_acquire_divider (wrap16 (acquire_divider g + 1))
                        g))).
Qed.

Lemma acquiring_ignores_request_witness :
  vscopeAcquire 10 Example.mem
    (host_request VSCOPE_HALTED
       (Example.after [Tick Example.mem] Example.triggered3))
  = option_map (host_request VSCOPE_HALTED)
      (vscopeAcquire 10 Example.mem
         (Example.after [Tick Example.mem] Example.triggered3)).
Proof.
  apply (acquiring_ignores_request 10 Example.mem VSCOPE_HALTED
           (Example.after [Tick Example.mem] Example.triggered3)).
  vm_compute. reflexivity.
Defined.

(** X6: neither a tick nor a trigger reads [pre_trig] or [n_ch]: writing
    either field changes nothing of what a call does.  The length of the
    acquisition window is [acq_time], which only [vscopeInit] computes from
    the pre-trigger count, and the number of channels copied is the constant
    of the header. *)
Theorem pre_trig_and_n_ch_never_read
    (N : Z) (mem : Memory) (x : Z) (g : Globals) :
  vscopeAcquire N mem (with_vscope (set_pre_trig x) g)
  = option_map (with_vscope (set_pre_trig x)) (vscopeAcquire N mem g)
  /\ vscopeAcquire N mem (with_vscope (set_n_ch x) g)
     = option_map (with_vscope (set_n_ch x)) (vscopeAcquire N mem g)
  /\ vscopeTrigger (with_vscope (set_pre_trig x) g)
     = with_vscope (set_pre_trig x) (vscopeTrigger g)
  /\ vscopeTrigger (with_vscope (set_n_ch x) g)
     = with_vscope (set_n_ch x) (vscopeTrigger g).
Proof.
  split; [| split; [| split]].
  - blind_tick (fun H1 H2 H3 H4 H5 H6 H7 H8 H9 H10 H11 =>
                  acquire_switch_blind N mem (set_pre_trig x)
                    H1 H2 H3 H4 H5 H6 H7 H8 H9 H10 H11
                    (set_acquire_divider 0
                       (set_acquire_divider (wrap16 (acquire_divider g + 1))
                          g))).
  - blind_tick (fun H1 H2 H3 H4 H5 H6 H7 H8 H9 H10 H11 =>
                  acquire_switch_blind N mem (set_n_ch x)
                    H1 H2 H3 H4 H5 H6 H7 H8 H9 H10 H11
                    (set_acquire_divider 0
                       (set_acquire_divider (wrap16 (acquire_divider g + 1))
                          g))).
  - unfold vscopeTrigger. cbn [vscope with_vscope state set_pre_trig].
    destruct (VscopeState_eqb _ _); reflexivity.
  - unfold vscopeTrigger. cbn [vscope with_vscope state set_n_ch].
    destruct (VscopeState_eqb _ _); reflexivity.
Qed.

(** ** The stop mark *)

(** X7: [first_element] is written only by the tick that ends an
    acquisition (the terminal tick of a window, or the tick after a trigger
    when [acq_time] is 0): every other tick and every trigger leave it as it
    is, and the value written is the cursor the tick starts with. *)
Theorem first_element_written_at_stop (N : Z) (mem : Memory) (g : Globals) :
  N < 65536 ->
  first_element (vscope (vscopeTrigger g)) = first_element (vscope g)
  /\ exists g' : Globals,
       vscopeAcquire N mem g = Some g'
       /\ (first_element (vscope g') = first_element (vscope g)
           \/ (gate_open g = true
               /\ state (vscope g') = VSCOPE_HALTED
               /\ first_element (vscope g') = index (vscope g)
               /\ (state (vscope g) = VSCOPE_ACQUIRING
                   /\ acquire_run_index g = acq_time (vscope g)
                   \/ state (vscope g) = VSCOPE_RUNNING
                      /\ request (vscope g) = VSCOPE_ACQUIRING
                      /\ acq_time (vscope g) = 0))).
Proof.
  intros HN. split.
  - unfold vscopeTrigger. destruct (VscopeState_eqb _ _); reflexivity.
  - destruct (gate_open g) eqn:Hopen.
    + rewrite (gate_open_tick N mem g Hopen). unfold acquire_switch.
      cbn [vscope set_acquire_divider acquire_run_index].
      destruct (state (vscope g)) eqn:Hst.
      * destruct (VscopeState_eqb _ _); eexists; (split; [reflexivity |]);
          left; reflexivity.
      * destruct (request (vscope g)) eqn:Hreq; simpl; rewrite ?Hreq; simpl;
          try destruct (Z.eqb_spec (acq_time (vscope g)) 0);
          match goal with
          | |- context [saveFrameToBuffer N mem ?x] =>
              destruct (saveFrameToBuffer_spec N mem x HN) as (? & -> & _)
          end;
          eexists; (split; [reflexivity |]); simpl; tauto.
      * destruct (Z.eqb_spec (acquire_run_index g) (acq_time (vscope g))).
        -- eexists. split; [reflexivity |]. simpl. tauto.
        -- match goal with
           | |- context [saveFrameToBuffer N mem ?x] =>
               destruct (saveFrameToBuffer_spec N mem x HN) as (? & -> & _)
           end.
           eexists. split; [reflexivity |]. left. reflexivity.
      * eexists. split; [reflexivity |]. left. reflexivity.
    + rewrite (gate_closed_tick N mem g Hopen).
      eexists. split; [reflexivity |]. left. reflexivity.
Qed.

Lemma first_element_written_at_stop_witness :
  exists g' : Globals,
    vscopeAcquire 10 Example.mem Example.running3 = Some g'
    /\ (first_element (vscope g') = first_element (vscope Example.running3)
        \/ (gate_open Example.running3 = true
            /\ state (vscope g') = VSCOPE_HALTED
            /\ first_element (vscope g') = index (vscope Example.running3)
            /\ (state (vscope Example.running3) = VSCOPE_ACQUIRING
                /\ acquire_run_index Example.running3
                   = acq_time (vscope Example.running3)
                \/ state (vscope Example.running3) = VSCOPE_RUNNING
                   /\ request (vscope Example.running3) = VSCOPE_ACQUIRING
                   /\ acq_time (vscope Example.running3) = 0))).
Proof.
  apply (first_element_written_at_stop 10 Example.mem Example.running3).
  lia.
Defined.

(** ** The limits of the 16-bit counters *)

(** X8: with 65536 channels or more the copy loop of [saveFrameToBuffer]
    never ends: its 16-bit counter is below the channel count at every
    value it takes, so no number of iterations is enough, and a tick that
    captures does not return. *)
Theorem channel_loop_needs_16_bit_count
    (N : Z) (mem : Memory) (g : Globals) :
  65536 <= N ->
  (forall (fuel : nat) (i : Z) (v : VscopeStruct),
     0 <= i < 65536 -> save_channels N fuel i mem v = None)
  /\ saveFrameToBuffer N mem g = None
  /\ (captures g = true -> vscopeAcquire N mem g = None).
Proof.
  intros HN.
  assert (Hloop : forall (fuel : nat) (i : Z) (v : VscopeStruct),
             0 <= i < 65536 -> save_channels N fuel i mem v = None).
  { induction fuel as [| fuel IH]; intros i v Hi; cbn [save_channels];
      (destruct (Z.ltb_spec i N); [| lia]); [reflexivity |].
    apply IH. apply wrap16_range. }
  assert (Hsave : forall g0 : Globals, saveFrameToBuffer N mem g0 = None).
  { intros g0. unfold saveFrameToBuffer. rewrite Hloop by lia. reflexivity. }
  split; [exact Hloop |]. split; [apply Hsave |].
  unfold captures. intros Hc. apply andb_true_iff in Hc as [Hopen Hc].
  rewrite (gate_open_tick N mem g Hopen). unfold acquire_switch.
  cbn [vscope set_acquire_divider acquire_run_index].
  destruct (state (vscope g)); try discriminate Hc.
  - apply Hsave.
  - apply negb_true_iff in Hc. rewrite Hc. apply Hsave.
Qed.

Lemma channel_loop_needs_16_bit_count_witness :
  saveFrameToBuffer 65536 Example.mem Example.running3 = None
  /\ vscopeAcquire 65536 Example.mem Example.running3 = None.
Proof.
  destruct (channel_loop_needs_16_bit_count 65536 Example.mem
              Example.running3) as (_ & H1 & H2); [lia |].
  split; [exact H1 |]. apply H2. vm_compute. reflexivity.
Defined.

(** X9: the window ends only when the run counter is equal to [acq_time].
    When [acq_time] is below the run counter (the host lowered it while the
    window was open) every qualifying tick goes on capturing and counting:
    the acquisition does not stop before the 16-bit counter has wrapped
    around. *)
Theorem window_overrun (N : Z) (cs : list call) :
  N < 65536 ->
  forall g : Globals,
    state (vscope g) = VSCOPE_ACQUIRING ->
    0 <= acq_time (vscope g) < acquire_run_index g ->
    acquire_run_index g + Z.of_nat (evaluations N cs g) < 65536 ->
    exists g' : Globals,
      run_calls N cs g = Some g'
      /\ state (vscope g') = VSCOPE_ACQUIRING
      /\ acquire_run_index g'
         = acquire_run_index g + Z.of_nat (evaluations N cs g)
      /\ frames_saved g' = (frames_saved g + evaluations N cs g)%nat.
Proof.
  intros HN. induction cs as [| c cs IH]; intros g Hst Ha Hev.
  - exists g. cbn [run_calls evaluations].
    repeat split; try assumption; try reflexivity; lia.
  - cbn [evaluations run_calls] in *. destruct c as [m |]; cbn [do_call] in *.
    + destruct (gate_open g) eqn:Hopen.
      * assert (Hne : acquire_run_index g <> acq_time (vscope g)) by lia.
        rewrite (gate_open_tick N m g Hopen) in *.
        rewrite switch_acquiring_capture in * by assumption.
        match goal with
        | |- context [saveFrameToBuffer N m ?x] =>
            destruct (capture_effect N m x HN)
              as (g1 & E & Hf1 & _ & _ & Hst1 & _ & _ & Hset & _ & Hr1)
        end.
        destruct Hset as (_ & _ & _ & _ & Ha1 & _).
        rewrite E in *. simpl in Hst1, Ha1, Hr1, Hf1.
        rewrite wrap16_small in Hr1 by lia.
        destruct (IH g1) as (g' & E' & Hst' & Hr' & Hf');
          [congruence | lia | lia |].
        exists g'. split; [exact E' |]. split; [exact Hst' |]. split; lia.
      * rewrite (gate_closed_tick N m g Hopen) in *.
        destruct (IH (set_acquire_divider (wrap16 (acquire_divider g + 1)) g))
          as (g' & E' & Hst' & Hr' & Hf'); try assumption.
        exists g'. split; [exact E' |]. simpl in *. tauto.
    + assert (Ht : vscopeTrigger g = g).
      { unfold vscopeTrigger. rewrite Hst. reflexivity. }
      rewrite Ht in *. apply IH; assumption.
Qed.

Lemma window_overrun_witness :
  exists g' : Globals,
    run_calls 10 (Tick <$> replicate 20 Example.mem) Scenario.overrun
    = Some g'
    /\ state (vscope g') = VSCOPE_ACQUIRING
    /\ frames_saved g' = (frames_saved Scenario.overrun + 20)%nat.
Proof.
  destruct (window_overrun 10 (Tick <$> replicate 20 Example.mem)
              ltac:(lia) Scenario.overrun)
    as (g' & E & Hst & _ & Hf);
    [vm_compute; reflexivity
    | vm_compute; repeat split; discriminate || reflexivity
    | vm_compute; reflexivity |].
  exists g'. split; [exact E |]. split; [exact Hst |].
  rewrite Hf. vm_compute. reflexivity.
Defined.

(** ** Initialisation *)

Lemma strncpy_length (s : string) (n : Z) :
  String.length (strncpy s n) = Nat.min (Z.to_nat n) (String.length s).
Proof.
  unfold strncpy. generalize (Z.to_nat n) as k. clear n.
  induction s as [| a s IH]; intros [| k]; cbn; try reflexivity.
  rewrite IH. reflexivity.
Qed.

Lemma strncpy_prefix (s : string) (n : Z) :
  String.prefix (strncpy s n) s = true.
Proof.
  unfold strncpy. generalize (Z.to_nat n) as k. clear n.
  induction s as [| a s IH]; intros [| k]; cbn; try reflexivity.
  destruct (Ascii.ascii_dec a a) as [_ | Hn]; [apply IH | contradiction].
Qed.

Lemma init_frame (SIZE N MEMORY LEN KP KI W : Z) (g0 : Globals) :
  frame (vscope (vscopeInit SIZE N MEMORY LEN KP KI W g0))
  = <[9 := phase]>
      (<[8 := threshold]>
         (<[7 := duration]>
            (<[6 := frequency]>
               (<[5 := temperature]>
                  (<[4 := voltage_limit]>
                     (<[3 := current_measurement]>
                        (<[2 := voltage_measurement]>
                           (<[1 := voltage_limit]>
                              (<[0 := voltage_setpoint]> ∅))))))))).
Proof. unfold vscopeInit. destruct (_ >? _); reflexivity. Qed.

Lemma init_names (SIZE N MEMORY LEN KP KI W : Z) (g0 : Globals) :
  vscope_channel_names (vscopeInit SIZE N MEMORY LEN KP KI W g0)
  = <[9 := strncpy (source_name phase) LEN]>
      (<[8 := strncpy (source_name threshold) LEN]>
         (<[7 := strncpy (source_name duration) LEN]>
            (<[6 := strncpy (source_name frequency) LEN]>
               (<[5 := strncpy (source_name temperature) LEN]>
                  (<[4 := strncpy (source_name voltage_limit) LEN]>
                     (<[3 := strncpy (source_name current_measurement) LEN]>
                        (<[2 := strncpy (source_name voltage_measurement)
                                  LEN]>
                           (<[1 := strncpy (source_name voltage_limit) LEN]>
                              (<[0 := strncpy (source_name voltage_setpoint)
                                        LEN]>
                                 (vscope_channel_names g0)))))))))).
Proof. unfold vscopeInit. destruct (_ >? _); reflexivity. Qed.

(** The slots of the table, one at a time. *)
Ltac each_slot c Hc :=
  let H := fresh "Hslot" in
  assert (H : c = 0 \/ c = 1 \/ c = 2 \/ c = 3 \/ c = 4 \/ c = 5
              \/ c = 6 \/ c = 7 \/ c = 8 \/ c = 9) by lia;
  clear Hc;
  destruct H as [H | [H | [H | [H | [H | [H | [H | [H | [H | H]]]]]]]]];
  subst c.

(** X10: what [vscopeInit] binds.  Slots 0 to 9 point to the ten sources of
    the table, slots 1 and 4 both to [voltage_limit], and every other slot
    is left null; the name of a slot is the name of its variable cut to
    [VSCOPE_MAX_NAME_LEN] characters.  So in every frame captured with these
    bindings channels 1 and 4 hold the same sample. *)
Theorem init_bindings (SIZE N MEMORY LEN KP KI W : Z) (g0 : Globals) :
  let g := vscopeInit SIZE N MEMORY LEN KP KI W g0 in
  frame (vscope g)
  = list_to_map
      [(0, voltage_setpoint); (1, voltage_limit); (2, voltage_measurement);
       (3, current_measurement); (4, voltage_limit); (5, temperature);
       (6, frequency); (7, duration); (8, threshold); (9, phase)]
  /\ (forall c : Z, (c < 0 \/ 9 < c) -> frame (vscope g) !! c = None)
  /\ (forall (c : Z) (s : source),
        frame (vscope g) !! c = Some s ->
        exists name : string,
          vscope_channel_names g !! c = Some name
          /\ String.prefix name (source_name s) = true
          /\ String.length name
             = Nat.min (Z.to_nat LEN) (String.length (source_name s)))
  /\ (forall (mem : Memory) (g1 : Globals),
        4 < N < 65536 ->
        frame (vscope g1) = frame (vscope g) ->
        exists g2 : Globals,
          saveFrameToBuffer N mem g1 = Some g2
          /\ buffer (vscope g2) !! (index (vscope g1), 1)
             = Some (mem voltage_limit)
          /\ buffer (vscope g2) !! (index (vscope g1), 4)
             = Some (mem voltage_limit)).
Proof.
  intros g. subst g.
  assert (Hout : forall c : Z,
             (c < 0 \/ 9 < c) ->
             frame (vscope (vscopeInit SIZE N MEMORY LEN KP KI W g0)) !! c
             = None).
  { intros c Hc. rewrite init_frame.
    repeat (rewrite lookup_insert_ne by lia). apply lookup_empty. }
  split; [| split; [exact Hout | split]].
  - apply map_eq. intros k.
    destruct (decide (0 <= k <= 9)) as [Hk | Hk].
    + rewrite init_frame. each_slot k Hk; vm_compute; reflexivity.
    + rewrite Hout by lia. symmetry. cbn.
      repeat (rewrite lookup_insert_ne by lia). apply lookup_empty.
  - intros c s Hs.
    destruct (decide (0 <= c <= 9)) as [Hc | Hc];
      [| rewrite Hout in Hs by lia; discriminate Hs].
    rewrite init_frame in Hs. rewrite init_names.
    each_slot c Hc; vm_compute in Hs; injection Hs as <-;
      repeat (rewrite lookup_insert_ne by lia); rewrite lookup_insert_eq;
      (eexists; split; [reflexivity |]);
      (split; [apply strncpy_prefix | apply strncpy_length]).
  - intros mem g1 HN Hg1.
    destruct (capture_effect N mem g1) as (g2 & E & _ & _ & Hcell & _);
      [lia |].
    destruct (capture_cells N mem _ _ Hcell) as (Hbound & _).
    exists g2. split; [exact E |].
    split; apply Hbound; try lia; rewrite Hg1, init_frame; reflexivity.
Qed.

Lemma init_bindings_witness :
  exists g2 : Globals,
    saveFrameToBuffer 10 Example.mem Example.running3 = Some g2
    /\ buffer (vscope g2) !! (index (vscope Example.running3), 1)
       = Some (Example.mem voltage_limit)
    /\ buffer (vscope g2) !! (index (vscope Example.running3), 4)
       = Some (Example.mem voltage_limit).
Proof.
  destruct (init_bindings 8 10 80 32 0 1 65536 boot) as (_ & _ & _ & H).
  apply (H Example.mem Example.running3); [lia |].
  vm_compute. reflexivity.
Defined.

Lemma init_rt_buffer (SIZE N MEMORY LEN KP KI W : Z) (g0 : Globals) :
  rt_buffer (vscopeInit SIZE N MEMORY LEN KP KI W g0)
  = <[KI := float_0_1]> (<[KP := float_0_5]> (rt_buffer g0)).
Proof. unfold vscopeInit. destruct (_ >? _); reflexivity. Qed.

Lemma globals_eq (g h : Globals) :
  vscope g = vscope h ->
  rt_buffer g = rt_buffer h ->
  vscope_channel_names g = vscope_channel_names h ->
  acquire_divider g = acquire_divider h ->
  acquire_run_index g = acquire_run_index h ->
  frames_saved g = frames_saved h ->
  g = h.
Proof. destruct g, h. cbn. intros. subst. reflexivity. Qed.

Lemma init_keeps (SIZE N MEMORY LEN KP KI W : Z) (g : Globals) :
  index (vscope (vscopeInit SIZE N MEMORY LEN KP KI W g)) = index (vscope g)
  /\ first_element (vscope (vscopeInit SIZE N MEMORY LEN KP KI W g))
     = first_element (vscope g)
  /\ acquire_divider (vscopeInit SIZE N MEMORY LEN KP KI W g)
     = acquire_divider g
  /\ acquire_run_index (vscopeInit SIZE N MEMORY LEN KP KI W g)
     = acquire_run_index g
  /\ frames_saved (vscopeInit SIZE N MEMORY LEN KP KI W g) = frames_saved g.
Proof. unfold vscopeInit. destruct (_ >? _); repeat split; reflexivity. Qed.

(** The structure after [vscopeInit], field by field. *)
Lemma init_vscope (SIZE N MEMORY LEN KP KI W : Z) (g : Globals) :
  vscope (vscopeInit SIZE N MEMORY LEN KP KI W g)
  = mkVscope
      (if (SIZE * N) mod W >? MEMORY
       then VSCOPE_MISCONFIGURED else VSCOPE_HALTED)
      VSCOPE_HALTED (wrap16 N) (wrap16 SIZE) 0 1 (wrap16 (SIZE - 0))
      (index (vscope g)) (first_element (vscope g)) ∅
      (frame (vscope (vscopeInit SIZE N MEMORY LEN KP KI W g))).
Proof. unfold vscopeInit. destruct (_ >? _); reflexivity. Qed.

(** X11: [vscopeInit] seeds the parameter at [PI_KI] with 0.1f and, when
    the two indices differ, the one at [PI_KP] with 0.5f; it leaves every
    other run-time parameter, the cursor, [first_element] and the static
    counters of the tick as they are.  Running it a second time changes
    nothing. *)
Theorem init_seeds_and_repeats (SIZE N MEMORY LEN KP KI W : Z) (g : Globals) :
  let init := vscopeInit SIZE N MEMORY LEN KP KI W in
  vscopeGetRtBuffer KI (init g) = float_0_1
  /\ (KP <> KI -> vscopeGetRtBuffer KP (init g) = float_0_5)
  /\ (forall j : Z,
        j <> KP -> j <> KI ->
        vscopeGetRtBuffer j (init g) = vscopeGetRtBuffer j g)
  /\ index (vscope (init g)) = index (vscope g)
  /\ first_element (vscope (init g)) = first_element (vscope g)
  /\ acquire_divider (init g) = acquire_divider g
  /\ acquire_run_index (init g) = acquire_run_index g
  /\ init (init g) = init g.
Proof.
  intros init. subst init. unfold vscopeGetRtBuffer.
  rewrite !init_rt_buffer.
  split; [rewrite lookup_insert_eq; reflexivity |].
  split; [intros Hne;
          rewrite lookup_insert_ne, lookup_insert_eq by congruence;
          reflexivity |].
  split; [intros j H1 H2; rewrite !lookup_insert_ne by congruence;
          reflexivity |].
  pose proof (init_keeps SIZE N MEMORY LEN KP KI W g) as Hk.
  pose proof (init_keeps SIZE N MEMORY LEN KP KI W
                (vscopeInit SIZE N MEMORY LEN KP KI W g)) as Hk2.
  repeat (split; [tauto |]).
  apply globals_eq; try tauto.
  - rewrite (init_vscope SIZE N MEMORY LEN KP KI W (vscopeInit _ _ _ _ _ _ _ g)).
    rewrite (init_vscope SIZE N MEMORY LEN KP KI W g).
    rewrite !init_frame. reflexivity.
  - rewrite !init_rt_buffer. apply map_eq. intros k.
    rewrite !lookup_insert. repeat case_decide; congruence.
  - rewrite !init_names. apply map_eq. intros k.
    destruct (decide (0 <= k <= 9)) as [Hk' | Hk'].
    + each_slot k Hk';
        (etransitivity;
         [repeat (rewrite lookup_insert_ne by lia); apply lookup_insert_eq
         | symmetry; repeat (rewrite lookup_insert_ne by lia);
           apply lookup_insert_eq]).
    + repeat (rewrite lookup_insert_ne by lia). reflexivity.
Qed.

Lemma init_seeds_and_repeats_witness :
  vscopeGetRtBuffer 0
    (vscopeInit 8 10 80 32 0 1 65536 (vscopeSetRtBuffer 0 77 Example.running3))
  = float_0_5.
Proof.
  destruct (init_seeds_and_repeats 8 10 80 32 0 1 65536
              (vscopeSetRtBuffer 0 77 Example.running3)) as (_ & H & _).
  apply H. lia.
Defined.

(** ** What a tick writes *)

(** A tick that captures writes one frame at the cursor and advances the
    cursor; any other tick leaves the buffer as it is, and the cursor too
    unless it takes the Halted case. *)
Lemma tick_effect (N : Z) (mem : Memory) (g : Globals) :
  N < 65536 ->
  exists g' : Globals,
    vscopeAcquire N mem g = Some g'
    /\ if captures g then
         index (vscope g') = next_index (vscope g)
         /\ (forall r c : Z,
               buffer (vscope g') !! (r, c)
               = cell_after_capture N mem (vscope g) r c)
         /\ frames_saved g' = S (frames_saved g)
       else
         buffer (vscope g') = buffer (vscope g)
         /\ frames_saved g' = frames_saved g
         /\ index (vscope g')
            = if resets_cursor g then 0 else index (vscope g).
Proof.
  intros HN. unfold captures, resets_cursor.
  destruct (gate_open g) eqn:Hopen; cbn [andb].
  - rewrite (gate_open_tick N mem g Hopen).
    destruct (state (vscope g)) eqn:Hst; cbn [VscopeState_eqb].
    + rewrite switch_halted by exact Hst.
      destruct (VscopeState_eqb _ _); eexists; (split; [reflexivity |]);
        simpl; tauto.
    + unfold acquire_switch. cbn [vscope set_acquire_divider].
      rewrite Hst.
      match goal with
      | |- context [saveFrameToBuffer N mem ?x] =>
          destruct (capture_effect N mem x HN)
            as (g' & E & Hf & Hi & Hcell & _);
          assert (Hv : index (vscope x) = index (vscope g)
                       /\ buffer (vscope x) = buffer (vscope g)
                       /\ frame (vscope x) = frame (vscope g)
                       /\ buffer_size (vscope x) = buffer_size (vscope g)
                       /\ frames_saved x = frames_saved g)
      end.
      { repeat match goal with
               | |- context [if ?c then _ else _] => destruct c
               end; simpl; tauto. }
      destruct Hv as (Hvi & Hvb & Hvf & Hvs & Hvn).
      exists g'. split; [exact E |].
      split; [rewrite Hi; unfold next_index; rewrite Hvi, Hvs; reflexivity |].
      split; [| rewrite Hf, Hvn; reflexivity].
      intros r c. rewrite Hcell. unfold cell_after_capture.
      rewrite Hvi, Hvb, Hvf. reflexivity.
    + destruct (Z.eqb_spec (acquire_run_index g) (acq_time (vscope g)))
        as [Heq | Hne]; cbn [negb].
      * rewrite switch_acquiring_stop by assumption.
        eexists. split; [reflexivity |]. simpl. tauto.
      * rewrite switch_acquiring_capture by assumption.
        match goal with
        | |- context [saveFrameToBuffer N mem ?x] =>
            destruct (capture_effect N mem x HN)
              as (g' & E & Hf & Hi & Hcell & _)
        end.
        exists g'. split; [exact E |]. split; [exact Hi |].
        split; [exact Hcell | exact Hf].
    + rewrite switch_misconfigured by exact Hst.
      eexists. split; [reflexivity |]. simpl. tauto.
  - rewrite (gate_closed_tick N mem g Hopen).
    eexists. split; [reflexivity |]. simpl. tauto.
Qed.

Lemma op_keeps_inside_storage (size N : Z) (o : host_op) (g : Globals) :
  N < 65536 ->
  1 <= size ->
  inside_storage size N g ->
  exists g' : Globals,
    do_op N o g = Some g' /\ inside_storage size N g'.
Proof.
  intros HN Hsize (Hbs & Hkeys & Hcur & Hmis).
  destruct o as [[mem |] | r]; cbn [do_op do_call].
  - destruct (tick_effect N mem g HN) as (g' & E & Heff).
    destruct (tick_state N mem g HN) as (g1 & E1 & Hst').
    rewrite E in E1. injection E1 as <-.
    destruct (tick_returns N mem g HN) as (g1 & E1 & Hset & _).
    rewrite E in E1. injection E1 as <-.
    destruct Hset as (_ & Hbs' & _).
    exists g'. split; [exact E |].
    unfold inside_storage. rewrite Hbs', Hbs.
    split; [reflexivity |].
    unfold captures, resets_cursor in Heff.
    destruct (gate_open g); cbn [andb] in Heff.
    + destruct (state (vscope g)) eqn:Hst; cbn [VscopeState_eqb] in Heff.
      * destruct Heff as (Hb & _ & Hi). rewrite Hb, Hi.
        split; [exact Hkeys |]. split; [| intros Hm; rewrite Hst' in Hm;
          destruct (VscopeState_eqb _ _); discriminate Hm].
        right. right. lia.
      * destruct Heff as (Hi & Hcell & _).
        assert (Hc : 0 <= index (vscope g) < buffer_size (vscope g))
          by (destruct Hcur as [? | [? | ?]]; [discriminate.. | lia]).
        pose proof (next_index_bound (vscope g) Hc) as Hnb.
        split; [| split; [right; right; lia |]].
        -- intros r c. rewrite Hcell. unfold cell_after_capture.
           destruct (decide _) as [[-> Hcc] | _]; [intros _; lia |].
           apply Hkeys.
        -- intros Hm. rewrite Hst' in Hm.
           destruct (request (vscope g)); try discriminate Hm;
             destruct (_ =? _); discriminate Hm.
      * assert (Hc : 0 <= index (vscope g) < buffer_size (vscope g))
          by (destruct Hcur as [? | [? | ?]]; [discriminate.. | lia]).
        pose proof (next_index_bound (vscope g) Hc) as Hnb.
        assert (Hnm : state (vscope g') <> VSCOPE_MISCONFIGURED)
          by (rewrite Hst'; destruct (_ =? _); discriminate).
        destruct (negb _).
        -- destruct Heff as (Hi & Hcell & _).
           split; [| split; [right; right; lia | contradiction]].
           intros r c. rewrite Hcell. unfold cell_after_capture.
           destruct (decide _) as [[-> Hcc] | _]; [intros _; lia |].
           apply Hkeys.
        -- destruct Heff as (Hb & _ & Hi). rewrite Hb, Hi.
           split; [exact Hkeys |]. split; [right; right; lia | contradiction].
      * destruct Heff as (Hb & _ & Hi). rewrite Hb, Hi, Hst'.
        split; [exact Hkeys |]. split; [tauto | intros _; auto].
    + destruct Heff as (Hb & _ & Hi). rewrite Hb, Hi, Hst'.
      split; [exact Hkeys |]. split; [exact Hcur | exact Hmis].
  - eexists. split; [reflexivity |].
    unfold inside_storage, vscopeTrigger.
    destruct (VscopeState_eqb _ _); simpl; tauto.
  - eexists. split; [reflexivity |].
    unfold inside_storage, host_request. simpl. tauto.
Qed.

(** X12: after [vscopeInit], whatever the globals it was run on, no
    sequence of ticks, triggers and request writes stores a sample outside
    the [VSCOPE_DEFAULT_BUFFER_SIZE] rows of [VSCOPE_NUM_CHANNELS] channels,
    so that every cell that is written lies inside the storage budget when
    the configuration fits it; and when the capacity test of [vscopeInit]
    fails (the product as its C type holds it exceeds the budget, which is
    the product itself when it does not overflow) nothing is written at
    all. *)
Theorem engine_writes_inside_storage
    (SIZE N MEMORY LEN KP KI W : Z) (g0 : Globals) (os : list host_op) :
  1 <= SIZE < 65536 ->
  N < 65536 ->
  exists g' : Globals,
    run_ops N os (vscopeInit SIZE N MEMORY LEN KP KI W g0) = Some g'
    /\ (forall r c : Z,
          is_Some (buffer (vscope g') !! (r, c)) ->
          0 <= r < SIZE /\ 0 <= c < N
          /\ (SIZE * N <= MEMORY -> 0 <= r * N + c < MEMORY))
    /\ ((SIZE * N) mod W > MEMORY -> buffer (vscope g') = ∅)
    /\ (0 <= SIZE * N < W -> SIZE * N > MEMORY -> buffer (vscope g') = ∅).
Proof.
  intros HS HN.
  assert (Hinit : inside_storage SIZE N
                    (vscopeInit SIZE N MEMORY LEN KP KI W g0)
                  /\ ((SIZE * N) mod W > MEMORY ->
                      state (vscope (vscopeInit SIZE N MEMORY LEN KP KI W g0))
                      = VSCOPE_MISCONFIGURED)).
  { unfold inside_storage. rewrite init_vscope.
    cbn [buffer_size buffer state index].
    rewrite wrap16_small by lia.
    split; [split; [reflexivity |]; split; [| split] |].
    - intros r c [x Hx]. rewrite lookup_empty in Hx. discriminate Hx.
    - destruct (_ >? _); tauto.
    - reflexivity.
    - intros Hgt.
      destruct (Z.gtb_spec ((SIZE * N) mod W) MEMORY); [reflexivity | lia]. }
  destruct Hinit as (Hinv & Hmis).
  assert (Hrun : forall (os : list host_op) (g : Globals),
             inside_storage SIZE N g ->
             exists g' : Globals,
               run_ops N os g = Some g'
               /\ inside_storage SIZE N g'
               /\ (state (vscope g) = VSCOPE_MISCONFIGURED ->
                   state (vscope g') = VSCOPE_MISCONFIGURED)).
  { clear os Hinv Hmis g0.
    induction os as [| o os IH]; intros g Hinv.
    - exists g. cbn. tauto.
    - destruct (op_keeps_inside_storage SIZE N o g HN ltac:(lia) Hinv)
        as (g1 & E & Hinv1).
      cbn [run_ops]. rewrite E.
      destruct (IH g1 Hinv1) as (g' & E' & Hinv' & Hm').
      exists g'. split; [exact E' |]. split; [exact Hinv' |].
      intros Hm. apply Hm'.
      destruct o as [[mem |] | r]; cbn [do_op do_call] in E.
      + destruct (tick_state N mem g HN) as (g2 & E2 & Hst2).
        rewrite E in E2. injection E2 as <-.
        rewrite Hst2, Hm. destruct (gate_open g); reflexivity.
      + injection E as <-. unfold vscopeTrigger. rewrite Hm. exact Hm.
      + injection E as <-. exact Hm. }
  destruct (Hrun os _ Hinv) as (g' & E & (Hbs & Hkeys & _ & Hempty) & Hm).
  exists g'. split; [exact E |]. split; [| split].
  - intros r c Hsome. destruct (Hkeys r c Hsome) as (Hr & Hc).
    split; [exact Hr |]. split; [exact Hc |]. intros Hfit. nia.
  - intros Hgt. apply Hempty. apply Hm. apply Hmis. exact Hgt.
  - intros Hfit Hgt. apply Hempty. apply Hm. apply Hmis.
    rewrite Z.mod_small by exact Hfit. exact Hgt.
Qed.

Lemma engine_writes_inside_storage_witness :
  (exists g' : Globals,
     run_ops 10 Scenario.session Scenario.reinit = Some g'
     /\ forall r c : Z,
          is_Some (buffer (vscope g') !! (r, c)) ->
          0 <= r < 8 /\ 0 <= c < 10
          /\ (8 * 10 <= 80 -> 0 <= r * 10 + c < 80))
  /\ exists g' : Globals,
       run_ops 10 Scenario.session
         (vscopeInit 8 10 79 32 0 1 65536 Example.running3) = Some g'
       /\ buffer (vscope g') = ∅.
Proof.
  split.
  - destruct (engine_writes_inside_storage 8 10 80 32 0 1 65536
                Example.running3 Scenario.session) as (g' & E & H & _);
      [lia | lia |].
    exists g'. split; [exact E | exact H].
  - destruct (engine_writes_inside_storage 8 10 79 32 0 1 65536
                Example.running3 Scenario.session) as (g' & E & _ & _ & H);
      [lia | lia |].
    exists g'. split; [exact E |]. apply H; lia.
Defined.

(** ** The ring buffer *)

(** Going back [j] rows from a row of the buffer, with [j] between 1 and
    the buffer size, does not reach that row again. *)
Lemma earlier_row_differs (i j n : Z) :
  0 <= i < n -> 0 < j < n -> (i - j) mod n <> i.
Proof.
  intros Hi Hj. destruct (Z_lt_dec (i - j) 0) as [Hneg | Hpos].
  - replace (i - j) with (i - j + n + (-1) * n) by lia.
    rewrite Z_mod_plus_full, Z.mod_small by lia. lia.
  - rewrite Z.mod_small by lia. lia.
Qed.

(** A capture puts its frame behind the new cursor and keeps the frames
    that were there, as far as the buffer has room for them. *)
Lemma capture_holds_frames
    (N : Z) (mem : Memory) (v v' : VscopeStruct) (hist : list Memory) :
  0 <= index v < buffer_size v ->
  buffer_size v < 65536 ->
  holds_frames N v (index v) hist ->
  index v' = next_index v ->
  (forall r c : Z, buffer v' !! (r, c) = cell_after_capture N mem v r c) ->
  frame v' = frame v ->
  buffer_size v' = buffer_size v ->
  holds_frames N v' (index v') (mem :: hist).
Proof.
  intros Hi Hb Hold Hnext Hcell Hfr Hbs k m Hk Hlt c s Hc Hs.
  rewrite Hbs in *. rewrite Hfr in Hs.
  replace (index v' - 1 - Z.of_nat k) with (index v' - (1 + Z.of_nat k))
    by lia.
  rewrite Hcell, Hnext, (next_index_mod v Hi Hb).
  rewrite Zminus_mod_idemp_l.
  replace (index v + 1 - (1 + Z.of_nat k)) with (index v - Z.of_nat k)
    by lia.
  unfold cell_after_capture. destruct k as [| k].
  - cbn in Hk. injection Hk as <-.
    rewrite Z.sub_0_r, Z.mod_small by lia.
    destruct (decide _) as [_ | Hn]; [| lia].
    rewrite Hs. reflexivity.
  - cbn in Hk.
    destruct (decide _) as [[Hrow _] | _].
    + exfalso. apply (earlier_row_differs (index v) (Z.of_nat (S k))
                        (buffer_size v)); [lia | lia | exact Hrow].
    + replace (index v - Z.of_nat (S k))
        with (index v - 1 - Z.of_nat k) by lia.
      apply (Hold k m Hk); [lia | exact Hc | exact Hs].
Qed.

(** The frames behind the cursor through a sequence of calls none of which
    takes the Halted case. *)
Lemma calls_hold_frames (N : Z) (cs : list call) :
  N < 65536 ->
  forall (g : Globals) (hist : list Memory),
    0 <= index (vscope g) < buffer_size (vscope g) ->
    buffer_size (vscope g) < 65536 ->
    cursor_kept N cs g = true ->
    holds_frames N (vscope g) (index (vscope g)) hist ->
    exists g' : Globals,
      run_calls N cs g = Some g'
      /\ holds_frames N (vscope g') (index (vscope g'))
           (frames_of N cs g ++ hist)
      /\ frames_saved g' = (frames_saved g + length (frames_of N cs g))%nat
      /\ 0 <= index (vscope g') < buffer_size (vscope g')
      /\ buffer_size (vscope g') = buffer_size (vscope g).
Proof.
  intros HN. induction cs as [| c cs IH]; intros g hist Hi Hb Hkept Hold.
  - exists g. cbn. repeat split; try assumption; lia.
  - cbn [cursor_kept run_calls frames_of] in *.
    apply andb_true_iff in Hkept as [Hnoreset Hkept].
    destruct c as [mem |]; cbn [do_call] in *.
    + destruct (tick_effect N mem g HN) as (g1 & E & Heff).
      destruct (tick_returns N mem g HN) as (g2 & E2 & Hset & _).
      rewrite E in E2. injection E2 as <-.
      destruct Hset as (_ & Hbs & _ & _ & _ & Hfr).
      rewrite E in *.
      apply negb_true_iff in Hnoreset. rewrite Hnoreset in Heff.
      destruct (captures g).
      * destruct Heff as (Hnext & Hcell & Hf).
        pose proof (next_index_bound (vscope g) Hi) as Hnb.
        destruct (IH g1 (mem :: hist)) as (g' & E' & Hold' & Hf' & Hi' & Hb');
          [rewrite Hnext, Hbs; lia | lia | exact Hkept
          | apply (capture_holds_frames N mem (vscope g)); assumption |].
        exists g'. split; [exact E' |].
        rewrite <- app_assoc. split; [exact Hold' |].
        rewrite length_app. cbn [length app].
        split; [lia |]. split; [exact Hi' | congruence].
      * destruct Heff as (Hbuf & Hf & Hidx).
        destruct (IH g1 hist) as (g' & E' & Hold' & Hf' & Hi' & Hb');
          [rewrite Hidx, Hbs; lia | lia | exact Hkept | |].
        { intros k m Hk Hlt c s Hc Hs.
          rewrite Hbuf, Hidx. rewrite Hbs in *. rewrite Hfr in Hs.
          apply (Hold k m Hk Hlt c s Hc Hs). }
        exists g'. split; [exact E' |]. rewrite app_nil_r.
        split; [exact Hold' |]. split; [lia |].
        split; [exact Hi' | congruence].
    + destruct (IH (vscopeTrigger g) hist)
        as (g' & E' & Hold' & Hf' & Hi' & Hb').
      * unfold vscopeTrigger. destruct (VscopeState_eqb _ _); exact Hi.
      * unfold vscopeTrigger. destruct (VscopeState_eqb _ _); exact Hb.
      * exact Hkept.
      * unfold vscopeTrigger. destruct (VscopeState_eqb _ _); exact Hold.
      * exists g'. split; [exact E' |]. rewrite app_nil_r.
        split; [exact Hold' |].
        destruct (trigger_settings g)
          as ((_ & Hbs & _) & _ & _ & _ & _ & Hf).
        split; [lia |]. split; [exact Hi' | congruence].
Qed.

(** In a free run with divisor 1 every tick captures: the frames of the
    run are the values at its ticks. *)
Lemma free_run_frames (N : Z) (ms : list Memory) :
  N < 65536 ->
  forall g : Globals,
    state (vscope g) = VSCOPE_RUNNING ->
    request (vscope g) = VSCOPE_RUNNING ->
    divider (vscope g) = 1 ->
    0 <= acquire_divider g < 65535 ->
    frames_of N (Tick <$> ms) g = rev ms
    /\ cursor_kept N (Tick <$> ms) g = true.
Proof.
  intros HN. induction ms as [| m ms IH]; intros g Hst Hreq Hd Hc.
  - split; reflexivity.
  - cbn [fmap list_fmap frames_of cursor_kept do_call rev].
    change (list_fmap Memory call Tick ms) with (Tick <$> ms).
    pose proof (gate_open_divisor_one g Hc Hd) as Hopen.
    destruct (running_tick N m g HN Hopen Hst Hreq)
      as (g1 & E & Hst1 & Hreq1 & _ & _ & _ & Hset & Hc1).
    destruct Hset as (_ & _ & _ & Hd1 & _).
    rewrite E. unfold captures, resets_cursor. rewrite Hopen, Hst.
    cbn [andb VscopeState_eqb negb].
    destruct (IH g1) as (Hfr & Hk); [assumption | assumption | congruence
                                    | lia |].
    rewrite Hfr, Hk. split; reflexivity.
Qed.

(** X13: in a free run with divisor 1 the buffer is a ring of the latest
    frames: after the ticks [ms], for every [k] below the buffer size and
    the number of ticks, the row [k + 1] places behind the cursor (modulo
    the buffer size) holds, in every bound channel, the value its source
    had at the [k]-th latest tick. *)
Theorem free_run_keeps_latest_frames
    (N : Z) (ms : list Memory) (g : Globals) :
  N < 65536 ->
  state (vscope g) = VSCOPE_RUNNING ->
  request (vscope g) = VSCOPE_RUNNING ->
  divider (vscope g) = 1 ->
  0 <= acquire_divider g < 65535 ->
  0 <= index (vscope g) < buffer_size (vscope g) ->
  buffer_size (vscope g) < 65536 ->
  exists g' : Globals,
    run_calls N (Tick <$> ms) g = Some g'
    /\ forall (k : nat) (m : Memory),
         rev ms !! k = Some m ->
         Z.of_nat k < buffer_size (vscope g) ->
         forall (c : Z) (s : source),
           0 <= c < N ->
           frame (vscope g) !! c = Some s ->
           buffer (vscope g')
           !! ((index (vscope g') - 1 - Z.of_nat k)
               mod buffer_size (vscope g), c)
           = Some (m s).
Proof.
  intros HN Hst Hreq Hd Hc Hi Hb.
  destruct (free_run_frames N ms HN g Hst Hreq Hd Hc) as (Hfr & Hkept).
  destruct (calls_hold_frames N (Tick <$> ms) HN g [] Hi Hb Hkept)
    as (g' & E & Hold & _ & _ & Hbs).
  { intros k m Hk. rewrite lookup_nil in Hk. discriminate Hk. }
  destruct (calls_keep_settings N (Tick <$> ms) HN g)
    as (g1 & E1 & Hset & _).
  rewrite E in E1. injection E1 as <-.
  destruct Hset as (_ & _ & _ & _ & _ & Hframe).
  exists g'. split; [exact E |].
  intros k m Hk Hlt c s Hcs Hs.
  rewrite app_nil_r, Hfr in Hold. rewrite <- Hbs.
  apply (Hold k m Hk); [lia | exact Hcs | congruence].
Qed.

Lemma free_run_keeps_latest_frames_witness :
  exists g' : Globals,
    run_calls 10 (Tick <$> replicate 3 (Scenario.mem_at 7)
                    ++ [Scenario.mem_at 8; Scenario.mem_at 9])
      Example.running3 = Some g'
    /\ buffer (vscope g')
       !! ((index (vscope g') - 1 - Z.of_nat 1)
           mod buffer_size (vscope Example.running3), 5)
       = Some (Scenario.mem_at 8 temperature).
Proof.
  destruct (free_run_keeps_latest_frames 10
              (replicate 3 (Scenario.mem_at 7)
                 ++ [Scenario.mem_at 8; Scenario.mem_at 9])
              Example.running3) as (g' & E & H);
    [lia | vm_compute; reflexivity | vm_compute; reflexivity
    | vm_compute; reflexivity
    | vm_compute; repeat split; discriminate || reflexivity
    | vm_compute; repeat split; discriminate || reflexivity
    | vm_compute; reflexivity |].
  exists g'. split; [exact E |].
  refine (H 1%nat (Scenario.mem_at 8) _ _ 5 temperature _ _);
    [reflexivity | vm_compute; reflexivity | lia | vm_compute; reflexivity].
Defined.

(** ** The buffer that a triggered acquisition leaves *)

(** Calls that do not pass the gate neither capture nor move the cursor. *)
Lemma quiet_kept (N : Z) (cs : list call) :
  forall g : Globals,
    evaluations N cs g = 0%nat ->
    cursor_kept N cs g = true /\ frames_of N cs g = [].
Proof.
  induction cs as [| c cs IH]; intros g Hev.
  - split; reflexivity.
  - cbn [evaluations cursor_kept frames_of] in *.
    destruct c as [m |]; cbn [do_call] in *.
    + destruct (gate_open g) eqn:Hopen; [discriminate Hev |].
      rewrite (gate_closed_tick N m g Hopen) in *.
      unfold captures, resets_cursor. rewrite Hopen. cbn [andb negb].
      destruct (IH _ Hev) as (-> & ->). split; reflexivity.
    + destruct (IH _ Hev) as (-> & ->). split; reflexivity.
Qed.

Lemma acquiring_kept (N : Z) (cs : list call) :
  N < 65536 ->
  forall g : Globals,
    state (vscope g) = VSCOPE_ACQUIRING ->
    0 <= acquire_run_index g ->
    acquire_run_index g + Z.of_nat (evaluations N cs g)
    <= acq_time (vscope g) ->
    acq_time (vscope g) < 65536 ->
    cursor_kept N cs g = true.
Proof.
  intros HN. induction cs as [| c cs IH]; intros g Hst Hr Hev Ha.
  - reflexivity.
  - destruct (acquiring_calls N [c] HN g Hst Hr) as (g1 & E & Hst1 & Ha1 & Hr1 & _);
      [cbn [evaluations] in *; destruct (do_call N c g); lia | exact Ha |].
    cbn [run_calls] in E.
    destruct (do_call N c g) as [g2 |] eqn:E2; [| discriminate E].
    injection E as ->.
    cbn [evaluations] in Hev, Hr1. rewrite E2 in Hev, Hr1.
    cbn [evaluations] in Hr1.
    cbn [cursor_kept]. rewrite E2.
    rewrite (IH g1) by (try assumption; lia).
    destruct c; [| reflexivity].
    unfold resets_cursor. rewrite Hst. cbn [VscopeState_eqb].
    rewrite andb_false_r. reflexivity.
Qed.

Lemma window_kept (N : Z) (cs : list call) :
  N < 65536 ->
  forall g : Globals,
    state (vscope g) = VSCOPE_RUNNING ->
    request (vscope g) = VSCOPE_ACQUIRING ->
    0 < acq_time (vscope g) < 65536 ->
    Z.of_nat (evaluations N cs g) = acq_time (vscope g) ->
    cursor_kept N cs g = true.
Proof.
  intros HN. induction cs as [| c cs IH]; intros g Hst Hreq Ha Hev.
  - reflexivity.
  - cbn [evaluations cursor_kept] in *.
    destruct c as [m |]; cbn [do_call] in *.
    + unfold resets_cursor. rewrite Hst. cbn [VscopeState_eqb].
      rewrite andb_false_r. cbn [negb andb].
      destruct (gate_open g) eqn:Hopen.
      * assert (Hne : acq_time (vscope g) <> 0) by lia.
        rewrite (gate_open_tick N m g Hopen) in *.
        rewrite switch_running_arm in * by assumption.
        match goal with
        | |- context [saveFrameToBuffer N m ?x] =>
            destruct (capture_effect N m x HN)
              as (g1 & E & _ & _ & _ & Hst1 & _ & _ & Hset & _ & Hr1)
        end.
        destruct Hset as (_ & _ & _ & _ & Ha1 & _).
        rewrite E in *. simpl in Hst1, Ha1, Hr1.
        apply (acquiring_kept N cs HN g1); [congruence | lia | lia | lia].
      * rewrite (gate_closed_tick N m g Hopen) in *.
        apply IH; assumption.
    + destruct (trigger_settings g)
        as ((_ & _ & _ & _ & Ha1 & _) & Hst1 & _).
      apply IH; [congruence | | lia | lia].
      unfold vscopeTrigger. rewrite Hst. reflexivity.
Qed.

Lemma end_kept (N : Z) (cs : list call) :
  forall g : Globals,
    state (vscope g) = VSCOPE_ACQUIRING ->
    acquire_run_index g = acq_time (vscope g) ->
    evaluations N cs g = 1%nat ->
    cursor_kept N cs g = true /\ frames_of N cs g = [].
Proof.
  induction cs as [| c cs IH]; intros g Hst Hr Hev.
  - discriminate Hev.
  - cbn [evaluations cursor_kept frames_of] in *.
    destruct c as [m |]; cbn [do_call] in *.
    + unfold captures, resets_cursor. rewrite Hst, Hr, Z.eqb_refl.
      cbn [VscopeState_eqb negb]. rewrite !andb_false_r. cbn [negb andb].
      destruct (gate_open g) eqn:Hopen.
      * rewrite (gate_open_tick N m g Hopen) in *.
        rewrite switch_acquiring_stop in * by assumption.
        match type of Hev with
        | context [evaluations N cs ?x] =>
            destruct (quiet_kept N cs x) as (-> & ->); [lia |]
        end.
        split; reflexivity.
      * rewrite (gate_closed_tick N m g Hopen) in *.
        destruct (IH (set_acquire_divider (wrap16 (acquire_divider g + 1)) g)
                    Hst Hr Hev) as (-> & ->).
        split; reflexivity.
    + assert (Ht : vscopeTrigger g = g).
      { unfold vscopeTrigger. rewrite Hst. reflexivity. }
      rewrite Ht in *. destruct (IH g Hst Hr Hev) as (-> & ->).
      split; reflexivity.
Qed.

(** X14: the buffer that a triggered acquisition leaves reads in order of
    time from [first_element].  When the trigger comes with the frames
    [hist] behind the cursor, the window adds exactly [acq_time] frames,
    and after the terminal tick the row [k + 1] places behind
    [first_element] (modulo the buffer size) holds the [k]-th latest of the
    window's frames followed by [hist], for every [k] below the buffer
    size: [first_element] is the row after the latest frame, which in a full
    ring is the oldest one. *)
Theorem triggered_capture_in_order
    (N : Z) (g : Globals) (hist : list Memory) (cs : list call) :
  N < 65536 ->
  state (vscope g) = VSCOPE_RUNNING ->
  request (vscope g) = VSCOPE_ACQUIRING ->
  0 < acq_time (vscope g) < 65536 ->
  0 <= index (vscope g) < buffer_size (vscope g) ->
  buffer_size (vscope g) < 65536 ->
  holds_frames N (vscope g) (index (vscope g)) hist ->
  Z.of_nat (evaluations N cs g) = acq_time (vscope g) ->
  exists ga : Globals,
    run_calls N cs g = Some ga
    /\ Z.of_nat (length (frames_of N cs g)) = acq_time (vscope g)
    /\ forall cs2 : list call,
         evaluations N cs2 ga = 1%nat ->
         exists gh : Globals,
           run_calls N cs2 ga = Some gh
           /\ state (vscope gh) = VSCOPE_HALTED
           /\ frames_of N cs2 ga = []
           /\ holds_frames N (vscope gh) (first_element (vscope gh))
                (frames_of N cs g ++ hist).
Proof.
  intros HN Hst Hreq Ha Hi Hb Hold Hev.
  pose proof (window_kept N cs HN g Hst Hreq Ha Hev) as Hkept.
  destruct (calls_hold_frames N cs HN g hist Hi Hb Hkept Hold)
    as (ga & E & Holda & Hfa & Hia & Hbsa).
  destruct (window_calls N cs HN g Hst Hreq Ha Hev)
    as (ga' & E' & Hsta & Haa & Hra & Hfa' & _).
  rewrite E in E'. injection E' as <-.
  exists ga. split; [exact E |]. split; [lia |].
  intros cs2 Hev2.
  destruct (window_end N cs2 ga Hsta ltac:(congruence) Hev2)
    as (gh & E2 & Hsth & Hfe & _ & Hbuf & _).
  destruct (end_kept N cs2 ga Hsta ltac:(congruence) Hev2) as (_ & Hnone).
  destruct (calls_keep_settings N cs2 HN ga) as (gh' & E2' & Hset & _).
  rewrite E2 in E2'. injection E2' as <-.
  destruct Hset as (_ & Hbs2 & _ & _ & _ & Hfr2).
  exists gh. split; [exact E2 |]. split; [exact Hsth |].
  split; [exact Hnone |].
  intros k m Hk Hlt c s Hc Hs.
  rewrite Hfe, Hbuf, Hbs2. rewrite Hbs2 in Hlt. rewrite Hfr2 in Hs.
  apply (Holda k m Hk Hlt c s Hc Hs).
Qed.

Lemma triggered_capture_in_order_witness :
  exists ga gh : Globals,
    run_calls 10 (Tick <$> replicate 8 Example.mem) Example.triggered3
    = Some ga
    /\ length (frames_of 10 (Tick <$> replicate 8 Example.mem)
                Example.triggered3) = 8%nat
    /\ run_calls 10 [Tick Example.mem] ga = Some gh
    /\ state (vscope gh) = VSCOPE_HALTED
    /\ buffer (vscope gh)
       !! ((first_element (vscope gh) - 1 - Z.of_nat 2)
           mod buffer_size (vscope gh), 6)
       = Some (Example.mem frequency).
Proof.
  destruct (triggered_capture_in_order 10 Example.triggered3 []
              (Tick <$> replicate 8 Example.mem))
    as (ga & E & Hlen & Hend);
    [lia | vm_compute; reflexivity | vm_compute; reflexivity
    | vm_compute; split; reflexivity
    | vm_compute; repeat split; discriminate || reflexivity
    | vm_compute; reflexivity
    | intros k m Hk; rewrite lookup_nil in Hk; discriminate Hk
    | vm_compute; reflexivity |].
  assert (Hga : Example.after (Tick <$> replicate 8 Example.mem)
                  Example.triggered3 = ga).
  { unfold Example.after at 1. unfold Example.channels. rewrite E.
    reflexivity. }
  subst ga.
  destruct (Hend [Tick Example.mem]) as (gh & E2 & Hst & _ & Hold);
    [vm_compute; reflexivity |].
  assert (Hgh : Example.after [Tick Example.mem]
                  (Example.after (Tick <$> replicate 8 Example.mem)
                     Example.triggered3) = gh).
  { unfold Example.after at 1. unfold Example.channels. rewrite E2.
    reflexivity. }
  eexists. exists gh. split; [exact E |].
  split; [vm_compute; reflexivity |]. split; [exact E2 |].
  split; [exact Hst |].
  refine (Hold 2%nat Example.mem _ _ 6 frequency _ _);
    [vm_compute; reflexivity | | lia |];
    rewrite <- Hgh; vm_compute; reflexivity.
Defined.

(** ** What a new run leaves in the buffer *)

(** A free run with divisor 1 that does not reach the end of the buffer
    writes the rows from the cursor on, one frame per tick, and no other
    row. *)
Lemma free_run_rows (N : Z) (ms : list Memory) :
  N < 65536 ->
  forall g : Globals,
    state (vscope g) = VSCOPE_RUNNING ->
    request (vscope g) = VSCOPE_RUNNING ->
    divider (vscope g) = 1 ->
    0 <= acquire_divider g < 65535 ->
    0 <= index (vscope g) ->
    index (vscope g) + Z.of_nat (length ms) <= buffer_size (vscope g) ->
    buffer_size (vscope g) < 65536 ->
    exists g' : Globals,
      run_calls N (Tick <$> ms) g = Some g'
      /\ frames_saved g' = (frames_saved g + length ms)%nat
      /\ (forall (k : nat) (m : Memory),
            ms !! k = Some m ->
            forall (c : Z) (s : source),
              0 <= c < N ->
              frame (vscope g) !! c = Some s ->
              buffer (vscope g') !! (index (vscope g) + Z.of_nat k, c)
              = Some (m s))
      /\ forall r c : Z,
           ~ (index (vscope g) <= r
              < index (vscope g) + Z.of_nat (length ms)) ->
           buffer (vscope g') !! (r, c) = buffer (vscope g) !! (r, c).
Proof.
  intros HN. induction ms as [| m ms IH]; intros g Hst Hreq Hd Hc Hi Hlen Hb.
  - exists g. cbn [fmap list_fmap run_calls length].
    split; [reflexivity |]. split; [lia |]. split; [| reflexivity].
    intros k m Hk. rewrite lookup_nil in Hk. discriminate Hk.
  - cbn [length] in Hlen.
    cbn [fmap list_fmap run_calls do_call].
    change (list_fmap Memory call Tick ms) with (Tick <$> ms).
    destruct (running_tick N m g HN (gate_open_divisor_one g Hc Hd) Hst Hreq)
      as (g1 & E & Hst1 & Hreq1 & Hf1 & Hi1 & Hcell & Hset & Hc1).
    destruct Hset as (_ & Hb1 & _ & Hd1 & _ & Hfr1).
    rewrite E.
    destruct (capture_cells N m _ _ Hcell) as (Hnew & Hrow).
    destruct ms as [| m' ms].
    + exists g1. split; [reflexivity |]. split; [cbn [length]; lia |].
      split.
      * intros [| k] m0 Hk; [| cbn in Hk; discriminate Hk].
        cbn in Hk. injection Hk as <-. intros c s Hcs Hs.
        rewrite Z.add_0_r. apply Hnew; assumption.
      * intros r c Hr. apply Hrow. cbn [length] in Hr. lia.
    + cbn [length] in Hlen.
      assert (Hi1' : index (vscope g1) = index (vscope g) + 1).
      { rewrite Hi1, next_index_mod by lia. apply Z.mod_small. lia. }
      destruct (IH g1) as (g' & E' & Hf' & Hnew' & Hrows);
        [assumption | assumption | congruence | lia | lia
        | rewrite Hi1', Hb1; cbn [length]; lia | lia |].
      exists g'. split; [exact E' |].
      split; [rewrite Hf', Hf1; cbn [length]; lia |].
      split.
      * intros [| k] m0 Hk c s Hcs Hs.
        -- cbn in Hk. injection Hk as <-. rewrite Z.add_0_r.
           rewrite Hrows by lia. apply Hnew; assumption.
        -- replace (index (vscope g) + Z.of_nat (S k))
             with (index (vscope g1) + Z.of_nat k) by lia.
           apply (Hnew' k m0 Hk c s Hcs). congruence.
      * intros r c Hr. cbn [length] in Hr, Hrows.
        rewrite Hrows by lia. apply Hrow. lia.
Qed.

(** X15: a new run does not clear the buffer.  Starting in state Halted
    with the request at Running and divisor 1, the first tick captures
    nothing: it leaves the buffer as it is, puts the cursor at 0 and enters
    state Running.  The ticks after it capture one frame each and fill the
    rows from 0 on, the [k]-th of them row [k]; a row that the new run has
    not reached yet still holds what the run before left there. *)
Theorem restart_keeps_old_rows
    (N : Z) (m0 : Memory) (ms : list Memory) (g : Globals) :
  N < 65536 ->
  state (vscope g) = VSCOPE_HALTED ->
  request (vscope g) = VSCOPE_RUNNING ->
  divider (vscope g) = 1 ->
  0 <= acquire_divider g < 65535 ->
  Z.of_nat (length ms) <= buffer_size (vscope g) < 65536 ->
  exists g1 g' : Globals,
    vscopeAcquire N m0 g = Some g1
    /\ state (vscope g1) = VSCOPE_RUNNING
    /\ index (vscope g1) = 0
    /\ buffer (vscope g1) = buffer (vscope g)
    /\ frames_saved g1 = frames_saved g
    /\ run_calls N (Tick <$> ms) g1 = Some g'
    /\ run_calls N (Tick <$> m0 :: ms) g = Some g'
    /\ frames_saved g' = (frames_saved g + length ms)%nat
    /\ (forall (k : nat) (m : Memory),
          ms !! k = Some m ->
          forall (c : Z) (s : source),
            0 <= c < N ->
            frame (vscope g) !! c = Some s ->
            buffer (vscope g') !! (Z.of_nat k, c) = Some (m s))
    /\ forall r c : Z,
         ~ (0 <= r < Z.of_nat (length ms)) ->
         buffer (vscope g') !! (r, c) = buffer (vscope g) !! (r, c).
Proof.
  intros HN Hst Hreq Hd Hc Hlen.
  pose (g1 := with_vscope (set_state VSCOPE_RUNNING)
                (with_vscope (set_index 0) (set_acquire_divider 0 g))).
  assert (E1 : vscopeAcquire N m0 g = Some g1).
  { rewrite (gate_open_tick N m0 g (gate_open_divisor_one g Hc Hd)).
    rewrite switch_halted by exact Hst.
    cbn [vscope set_acquire_divider]. rewrite Hreq. reflexivity. }
  destruct (free_run_rows N ms HN g1) as (g' & E & Hf & Hnew & Hrows);
    [reflexivity | exact Hreq | exact Hd | simpl; lia | simpl; lia
    | simpl; lia | simpl; lia |].
  exists g1, g'. split; [exact E1 |].
  repeat (split; [reflexivity |]).
  split; [exact E |].
  split; [cbn [fmap list_fmap run_calls do_call]; rewrite E1; exact E |].
  split; [exact Hf |]. split; [| exact Hrows].
  intros k m Hk c s Hcs Hs. apply (Hnew k m Hk c s Hcs Hs).
Qed.

Lemma restart_keeps_old_rows_witness :
  exists g1 g' : Globals,
    vscopeAcquire 10 (Scenario.mem_at 1)
      (host_request VSCOPE_RUNNING
         (Example.after [Tick Example.mem]
            (host_request VSCOPE_HALTED Example.running3))) = Some g1
    /\ frames_saved g1 = 4%nat
    /\ run_calls 10 (Tick <$> [Scenario.mem_at 2; Scenario.mem_at 3]) g1
       = Some g'
    /\ frames_saved g' = 6%nat
    /\ buffer (vscope g') !! (Z.of_nat 1, 5)
       = Some (Scenario.mem_at 3 temperature)
    /\ buffer (vscope g') !! (2, 5) = Some (Example.mem temperature).
Proof.
  destruct (restart_keeps_old_rows 10 (Scenario.mem_at 1)
              [Scenario.mem_at 2; Scenario.mem_at 3]
              (host_request VSCOPE_RUNNING
                 (Example.after [Tick Example.mem]
                    (host_request VSCOPE_HALTED Example.running3))))
    as (g1 & g' & E1 & _ & _ & _ & Hf1 & E & _ & Hf & Hnew & Hold);
    [lia | vm_compute; reflexivity | vm_compute; reflexivity
    | vm_compute; reflexivity
    | vm_compute; repeat split; discriminate || reflexivity
    | vm_compute; repeat split; discriminate || reflexivity |].
  exists g1, g'. split; [exact E1 |].
  split; [rewrite Hf1; vm_compute; reflexivity |].
  split; [exact E |].
  split; [rewrite Hf; vm_compute; reflexivity |].
  split.
  - refine (Hnew 1%nat (Scenario.mem_at 3) _ 5 temperature _ _);
      [reflexivity | lia | vm_compute; reflexivity].
  - rewrite (Hold 2 5) by (cbn [length]; lia). vm_compute. reflexivity.
Defined.
